(** * Federated GAN orchestration ([gans/tff_gans.py]): a shallow embedding

    The Python module builds the TensorFlow Federated computations for
    federated GAN training.  This development embeds

    - [tensor_spec_for_batch], the type deriver;
    - [GanFnsAndTypes] and its [__attrs_post_init__], the training context;
    - the computation builders and [build_gan_training_process] with its two
      federated computations [fed_server_initial_state] and [run_one_round].

    Python exceptions are an error monad; the pieces of TensorFlow and
    TensorFlow Federated that the module calls are modelled in the modules
    [tf] and [tff].  The arithmetic of those libraries (sums and means of
    float32 tensors, sums of integer counters) is carried out on exact
    rationals and unbounded integers, as a stand-in for kernels that are
    not part of the module: the statements below say which computation is
    invoked, on which arguments and with what outcome, and none of them is
    about a number such a kernel returns. *)

From Stdlib Require Import List String Ascii Bool Arith ZArith Lia.
From Stdlib Require Import QArith Qcanon Field.
Import ListNotations.

Set Implicit Arguments.
Set Warnings "-register-all".
Open Scope string_scope.

(** ** Python exceptions *)

Inductive Exn : Type :=
| TypeError (msg : string)
| ValueError (msg : string)
| TensorConversionError.
(* [TensorConversionError] stands for whatever [tf.convert_to_tensor] raises
   on an object it rejects; its class and text belong to TensorFlow. *)

Inductive Result (A : Type) : Type :=
| Ok (a : A)
| Raise (e : Exn).
Arguments Ok {A} a.
Arguments Raise {A} e.

Definition bind {A B} (r : Result A) (k : A -> Result B) : Result B :=
  match r with
  | Ok a => k a
  | Raise e => Raise e
  end.

Notation "x <- r ;; k" := (bind r (fun x => k))
  (at level 61, r at next level, right associativity).
Notation "r ;;; k" := (bind r (fun _ => k))
  (at level 61, right associativity).

Definition succeeds {A} (r : Result A) : bool :=
  match r with Ok _ => true | Raise _ => false end.

Fixpoint mapM {A B} (f : A -> Result B) (xs : list A) : Result (list B) :=
  match xs with
  | [] => Ok []
  | x :: xs' => y <- f x ;; ys <- mapM f xs' ;; Ok (y :: ys)
  end.

(** ** The parts of TensorFlow the module uses *)

Module tf.

Inductive DType : Type :=
| float16 | float32 | float64 | int32 | int64 | uint8 | bool_ | string_.

Definition DType_eqb (a b : DType) : bool :=
  match a, b with
  | float16, float16 | float32, float32 | float64, float64
  | int32, int32 | int64, int64 | uint8, uint8
  | bool_, bool_ | string_, string_ => true
  | _, _ => false
  end.

(** An eager tensor: element type, static shape ([tensor.shape.dims]) and
    entries in row-major order. *)
Record Tensor : Type := mkTensor {
  dtype : DType;
  dims : list nat;
  data : list Qc
}.

(** [tf.TensorSpec(shape, dtype)]; [None] is an unbound dimension. *)
Record TensorSpec : Type := mkTensorSpec {
  spec_shape : list (option nat);
  spec_dtype : DType
}.

(** A leaf value of a batch as [tf.convert_to_tensor] sees it: either
    array-like (an [np.ndarray], an eager tensor, a Python number, which
    has [dims = []]), or an object it rejects (e.g. [None]). *)
Inductive PyLeaf : Type :=
| ArrayLike (t : Tensor)
| NotArrayLike (type_name : string).

Definition convert_to_tensor (v : PyLeaf) : Result Tensor :=
  match v with
  | ArrayLike t => Ok t
  | NotArrayLike _ => Raise TensorConversionError
  end.

(** [tf.TensorSpec.from_tensor]: every dimension of an eager tensor is
    known. *)
Definition from_tensor (t : Tensor) : TensorSpec :=
  mkTensorSpec (map Some (dims t)) (dtype t).

(** Nested structures as [tf.nest] sees them.  A mapping keeps its keys
    in the order of the object; a named tuple also has its class name. *)
Inductive Nest (A : Type) : Type :=
| Leaf (a : A)
| NList (xs : list (Nest A))
| NTuple (xs : list (Nest A))
| NDict (kvs : list (string * Nest A))
| NNamedTuple (cls : string) (kvs : list (string * Nest A)).
Arguments Leaf {A} a.
Arguments NList {A} xs.
Arguments NTuple {A} xs.
Arguments NDict {A} kvs.
Arguments NNamedTuple {A} cls kvs.

Module nest.

(** [tf.nest.map_structure func structure]: the result has the shape
    of [structure], container types included (a mapping keeps its type,
    its keys and their order).  The first exception raised by [func]
    aborts the traversal.  [tf.nest] visits the values of a mapping in
    the order of the sorted keys; here they are visited in the order of
    the mapping, which can only change which of several exceptions is
    seen first. *)
Fixpoint map_structure {A B} (func : A -> Result B) (s : Nest A)
  : Result (Nest B) :=
  let fix items (xs : list (Nest A)) : Result (list (Nest B)) :=
    match xs with
    | [] => Ok []
    | x :: xs' =>
        y <- map_structure func x ;; ys <- items xs' ;; Ok (y :: ys)
    end in
  let fix fields (kvs : list (string * Nest A))
    : Result (list (string * Nest B)) :=
    match kvs with
    | [] => Ok []
    | (k, x) :: kvs' =>
        y <- map_structure func x ;; ys <- fields kvs' ;;
        Ok ((k, y) :: ys)
    end in
  match s with
  | Leaf a => b <- func a ;; Ok (Leaf b)
  | NList xs => ys <- items xs ;; Ok (NList ys)
  | NTuple xs => ys <- items xs ;; Ok (NTuple ys)
  | NDict kvs => ys <- fields kvs ;; Ok (NDict ys)
  | NNamedTuple cls kvs => ys <- fields kvs ;; Ok (NNamedTuple cls ys)
  end.

(** The leaves of a structure, left to right. *)
Fixpoint leaves {A} (s : Nest A) : list A :=
  match s with
  | Leaf a => [a]
  | NList xs | NTuple xs => flat_map leaves xs
  | NDict kvs | NNamedTuple _ kvs =>
      flat_map (fun kv => leaves (snd kv)) kvs
  end.

End nest.

End tf.

(** ** The type deriver *)

(** [hasattr(dummy_batch, '_asdict')]: named tuples have the method. *)
Definition hasattr_asdict {A} (b : tf.Nest A) : bool :=
  match b with
  | tf.NNamedTuple _ _ => true
  | _ => false
  end.

(** [dummy_batch._asdict()]: the fields as an ordered mapping (one level
    only; nested named tuples stay as they are). *)
Definition asdict {A} (b : tf.Nest A) : tf.Nest A :=
  match b with
  | tf.NNamedTuple _ kvs => tf.NDict kvs
  | other => other
  end.

(** [_get_tensor_spec]: [shape = [None] + tensor.shape.dims[1:]]. *)
Definition get_tensor_spec (tensor : tf.PyLeaf) : Result tf.TensorSpec :=
  tensor <- tf.convert_to_tensor tensor ;;
  Ok (tf.mkTensorSpec (None :: map Some (tl (tf.dims tensor)))
                      (tf.dtype tensor)).

Definition tensor_spec_for_batch (dummy_batch : tf.Nest tf.PyLeaf)
  : Result (tf.Nest tf.TensorSpec) :=
  let dummy_batch :=
    if hasattr_asdict dummy_batch then asdict dummy_batch else dummy_batch in
  tf.nest.map_structure get_tensor_spec dummy_batch.

(** ** The parts of TensorFlow Federated the module uses *)

Module tff.

(** [tff.to_type] of a list of tensor specs, the type of a model's
    weights; a value of that type is a list of tensors. *)
Definition WeightsType : Type := list tf.TensorSpec.
Definition Weights : Type := list tf.Tensor.

Inductive Placement : Type := SERVER | CLIENTS.

Inductive FedType : Type :=
| StructType (s : tf.Nest tf.TensorSpec)
| SequenceType (element : tf.Nest tf.TensorSpec)
| FederatedType (member : FedType) (placement : Placement).

Definition type_at_clients (t : FedType) : FedType := FederatedType t CLIENTS.
Definition type_at_server (t : FedType) : FedType := FederatedType t SERVER.

(** A value placed at the clients: one value for all of them (what
    [tff.federated_broadcast] returns) or one value per client. *)
Inductive AtClients (A : Type) : Type :=
| all_equal (a : A)
| per_client (xs : list A).
Arguments all_equal {A} a.
Arguments per_client {A} xs.

(** *** Type checking of tensor arguments *)

Definition dim_matches (d : option nat) (n : nat) : bool :=
  match d with
  | None => true
  | Some m => Nat.eqb m n
  end.

Fixpoint shape_matches (shape : list (option nat)) (ds : list nat) : bool :=
  match shape, ds with
  | [], [] => true
  | d :: shape', n :: ds' => dim_matches d n && shape_matches shape' ds'
  | _, _ => false
  end.

Definition num_elements (ds : list nat) : nat := fold_right Nat.mul 1%nat ds.

Definition tensor_conforms (spec : tf.TensorSpec) (t : tf.Tensor) : bool :=
  tf.DType_eqb (tf.spec_dtype spec) (tf.dtype t)
  && shape_matches (tf.spec_shape spec) (tf.dims t)
  && Nat.eqb (List.length (tf.data t)) (num_elements (tf.dims t)).

Fixpoint conforms (type : WeightsType) (w : Weights) : bool :=
  match type, w with
  | [], [] => true
  | spec :: type', t :: w' => tensor_conforms spec t && conforms type' w'
  | _, _ => false
  end.

(** *** Tensor arithmetic, entry by entry

    A stand-in in exact arithmetic for the float32 kernels: no rounding,
    no overflow, no infinity or NaN, and the clients are summed in the
    order in which they are listed. *)

Fixpoint zip_with {A B C} (f : A -> B -> C) (xs : list A) (ys : list B)
  : list C :=
  match xs, ys with
  | x :: xs', y :: ys' => f x y :: zip_with f xs' ys'
  | _, _ => []
  end.

Definition known_dims (shape : list (option nat)) : list nat :=
  map (fun d => match d with Some n => n | None => 0%nat end) shape.

Definition zeros (spec : tf.TensorSpec) : tf.Tensor :=
  let ds := known_dims (tf.spec_shape spec) in
  tf.mkTensor (tf.spec_dtype spec) ds (repeat 0%Qc (num_elements ds)).

Definition tensor_add (a b : tf.Tensor) : tf.Tensor :=
  tf.mkTensor (tf.dtype a) (tf.dims a) (zip_with Qcplus (tf.data a) (tf.data b)).

(** [value * weight] of the weighted mean. *)
Definition tensor_mul (t : tf.Tensor) (w : Qc) : tf.Tensor :=
  tf.mkTensor (tf.dtype t) (tf.dims t) (map (fun x => x * w)%Qc (tf.data t)).

(** The quotient of the two sums.  At a zero divisor float32 gives an
    infinity or NaN (zero with [no_nan_division]); exact arithmetic has
    no such value, and [Qcdiv] gives zero there. *)
Definition tensor_div (t : tf.Tensor) (w : Qc) : tf.Tensor :=
  tf.mkTensor (tf.dtype t) (tf.dims t) (map (fun x => x / w)%Qc (tf.data t)).

(** [tff.federated_sum] of a client-placed structure of tensors, and of a
    client-placed scalar. *)
Definition federated_sum (type : WeightsType) (values : list Weights)
  : Weights :=
  fold_left (zip_with tensor_add) values (map zeros type).

Definition federated_sum_scalar (xs : list Qc) : Qc :=
  fold_left Qcplus xs 0%Qc.

(** *** Aggregation processes *)

(** The state of a process: the leaves of its state structure. *)
Definition AggState : Type := list Qc.

(** [tff.templates.MeasuredProcessOutput]; the module reads [state] and
    [result] only. *)
Record MeasuredProcessOutput : Type := mkOutput {
  state : AggState;
  result : Weights
}.

(** The [next] computation of a process takes [(state, value)] or
    [(state, value, weight)]. *)
Inductive NextFn : Type :=
| next_unweighted
    (f : AggState -> list Weights -> Result MeasuredProcessOutput)
| next_weighted
    (f : AggState -> list Weights -> list Qc -> Result MeasuredProcessOutput).

Record AggregationProcess : Type := mkProcess {
  value_type : WeightsType;
  initialize : AggState;
  next_fn : NextFn
}.

(** [AggregationProcess.is_weighted]: true when [next] has a third
    parameter for the weights. *)
Definition is_weighted (p : AggregationProcess) : bool :=
  match next_fn p with
  | next_weighted _ => true
  | next_unweighted _ => false
  end.

(** Calling [p.next(state, value)] or [p.next(state, value, weight)]; a
    call with the wrong number of arguments raises. *)
Definition next (p : AggregationProcess) (st : AggState)
  (value : list Weights) (weight : option (list Qc))
  : Result MeasuredProcessOutput :=
  match next_fn p, weight with
  | next_unweighted f, None => f st value
  | next_weighted f, Some w => f st value w
  | next_unweighted _, Some _ =>
      Raise (TypeError "next() takes 2 positional arguments but 3 were given")
  | next_weighted _, None =>
      Raise (TypeError "next() missing 1 required positional argument")
  end.

Definition check_values (type : WeightsType) (value : list Weights)
  : Result unit :=
  if forallb (conforms type) value then Ok tt
  else Raise (TypeError "value does not match the value type of the process").

(** [tff.aggregators.MeanFactory().create(value_type, weight_type)]: the
    weighted mean, whose [next] takes the weights as third argument.  The
    weighted values and the weights are summed over the clients and the
    sums divided; the process is stateless.  The checks the library makes
    of the two types are not modelled. *)
Definition MeanFactory_create (value_type : WeightsType)
  (weight_type : tf.DType) : AggregationProcess :=
  mkProcess value_type []
    (next_weighted (fun st value weight =>
       check_values value_type value ;;;
       if negb (Nat.eqb (List.length value) (List.length weight)) then
         Raise (ValueError "value and weight are placed at different clients")
       else
         let weighted_values :=
           zip_with (fun v w => map (fun t => tensor_mul t w) v) value weight in
         let value_sum := federated_sum value_type weighted_values in
         let weight_sum := federated_sum_scalar weight in
         Ok (mkOutput st
               (map (fun t => tensor_div t weight_sum) value_sum)))).

(** The [tensorflow_privacy.DPQuery] interface, as
    [DifferentiallyPrivateFactory] uses it.  The randomness a query draws
    is taken to be fixed by its global state. *)
Record DPQuery : Type := mkDPQuery {
  initial_global_state : AggState;
  derive_sample_params : AggState -> list Qc;
  preprocess_record : list Qc -> Weights -> Weights;
  get_noised_result : Weights -> AggState -> Weights * AggState
}.

(** A Python object offered as privacy query: an instance of [DPQuery]
    (which may or may not be a [NormalizedQuery]) or anything else. *)
Inductive PyQuery : Type :=
| QueryObject (normalized : bool) (q : DPQuery)
| NotAQuery (type_name : string).

(** [tff.aggregators.DifferentiallyPrivateFactory(query).create(value_type)].
    The factory checks that [query] is a [DPQuery]; the process it creates
    takes no weight: records are preprocessed per client, summed, and the
    query finishes the sum.  The records are taken to have the value
    type. *)
Definition DifferentiallyPrivateFactory_create (query : PyQuery)
  (value_type : WeightsType) : Result AggregationProcess :=
  match query with
  | NotAQuery type_name =>
      Raise (TypeError ("Expected tensorflow_privacy.DPQuery, found "
                        ++ type_name ++ "."))
  | QueryObject _ q =>
      Ok (mkProcess value_type (initial_global_state q)
            (next_unweighted (fun st value =>
               check_values value_type value ;;;
               let params := derive_sample_params q st in
               let record := map (preprocess_record q params) value in
               let agg_result := federated_sum value_type record in
               let (res, new_state) := get_noised_result q agg_result st in
               Ok (mkOutput new_state res))))
  end.

End tff.

(** ** Python objects handed to the training context *)

(** What a model factory returns, as far as the module looks at it: its
    type as [type(obj)] prints it, whether it is a
    [tf.keras.models.Model], what calling it on a batch does (the value is
    discarded), and its [weights] (read through [read_value()]). *)
Record PyObj : Type := mkPyObj {
  py_type : string;
  isinstance_keras_Model : bool;
  py_call : tf.Nest tf.PyLeaf -> Result unit;
  weights : tff.Weights
}.

(** An opaque Python callable: a training function or an optimizer
    factory, handed on untouched. *)
Inductive PyCallable : Type :=
| py_callable (name : string).

(** A [tf.data.Dataset] of batches. *)
Definition Dataset : Type := list (tf.Nest tf.PyLeaf).

(** A structure of integer counters; its element type is declared in
    [gan_training_tf_fns]. *)
Definition Counters : Type := list Z.

(** ** The interface of [gan_training_tf_fns] *)

Module ServerState.
(** Modelled from the spec: the attr class [ServerState] of
    [gan_training_tf_fns], whose declaration is not part of the module;
    fields in the order the module passes them. *)
Record t : Type := mk {
  generator_weights : tff.Weights;
  discriminator_weights : tff.Weights;
  counters : Counters;
  aggregation_state : tff.AggState
}.
End ServerState.

Module FromServer.
(** Modelled from the spec: the attr class [FromServer] of
    [gan_training_tf_fns], the payload broadcast to the clients. *)
Record t : Type := mk {
  generator_weights : tff.Weights;
  discriminator_weights : tff.Weights
}.
End FromServer.

Module ClientOutput.
(** Modelled from the spec: the attr class [ClientOutput] of
    [gan_training_tf_fns], one per client and round. *)
Record t : Type := mk {
  discriminator_weights_delta : tff.Weights;
  update_weight : Qc;
  counters : Counters
}.
End ClientOutput.

Module gan_training_tf_fns.
(** The three functions of [gan_training_tf_fns] that the module wraps.
    Their bodies are not part of the module: they are parameters. *)
Record impl : Type := mk {
  server_initial_state : PyObj -> PyObj -> Result ServerState.t;
  client_computation :
    Dataset -> Dataset -> FromServer.t -> PyObj -> PyObj -> PyCallable ->
    Result ClientOutput.t;
  server_computation :
    ServerState.t -> Dataset -> ClientOutput.t -> PyObj -> PyObj ->
    PyCallable -> PyCallable -> tff.AggState -> Result ServerState.t
}.
End gan_training_tf_fns.

(** ** The training context *)

Module Args.
(** The arguments of [GanFnsAndTypes.__init__]. *)
Record t : Type := mk {
  generator_model_fn : unit -> PyObj;
  discriminator_model_fn : unit -> PyObj;
  dummy_gen_input : tf.Nest tf.PyLeaf;
  dummy_real_data : tf.Nest tf.PyLeaf;
  train_generator_fn : PyCallable;
  train_discriminator_fn : PyCallable;
  server_disc_update_optimizer_fn : unit -> PyCallable;
  train_discriminator_dp_average_query : option tff.PyQuery
}.
End Args.

Record GanFnsAndTypes : Type := mkGanFnsAndTypes {
  generator_model_fn : unit -> PyObj;
  discriminator_model_fn : unit -> PyObj;
  dummy_gen_input : tf.Nest tf.PyLeaf;
  dummy_real_data : tf.Nest tf.PyLeaf;
  train_generator_fn : PyCallable;
  train_discriminator_fn : PyCallable;
  server_disc_update_optimizer_fn : unit -> PyCallable;
  train_discriminator_dp_average_query : option tff.PyQuery;
  gen_input_type : tf.Nest tf.TensorSpec;
  real_data_type : tf.Nest tf.TensorSpec;
  from_server_type : tff.WeightsType * tff.WeightsType;
  generator_weights_type : tff.WeightsType;
  discriminator_weights_type : tff.WeightsType;
  client_gen_input_type : tff.FedType;
  client_real_data_type : tff.FedType;
  server_gen_input_type : tff.FedType;
  aggregation_process : tff.AggregationProcess;
  _generator : PyObj;
  _discriminator : PyObj
}.

Definition expected_keras_Model (obj : PyObj) : Exn :=
  TypeError ("Expected `tf.keras.models.Model`, found " ++ py_type obj ++ ".").

Definition vars_to_type (var_struct : tff.Weights) : tff.WeightsType :=
  map tf.from_tensor var_struct.

(** The choice of the aggregation process, the last step of
    [__attrs_post_init__]. *)
Definition select_aggregation_process (query : option tff.PyQuery)
  (discriminator_weights_type : tff.WeightsType)
  : Result tff.AggregationProcess :=
  match query with
  | Some q =>
      tff.DifferentiallyPrivateFactory_create q discriminator_weights_type
  | None =>
      Ok (tff.MeanFactory_create discriminator_weights_type tf.float32)
  end.

(** [GanFnsAndTypes(...)]: the stored arguments, then
    [__attrs_post_init__]. *)
Definition attrs_post_init (self : Args.t) : Result GanFnsAndTypes :=
  gen_input_type <- tensor_spec_for_batch (Args.dummy_gen_input self) ;;
  real_data_type <- tensor_spec_for_batch (Args.dummy_real_data self) ;;
  let generator := Args.generator_model_fn self tt in
  py_call generator (Args.dummy_gen_input self) ;;;
  if negb (isinstance_keras_Model generator) then
    Raise (expected_keras_Model generator)
  else
  let discriminator := Args.discriminator_model_fn self tt in
  py_call discriminator (Args.dummy_real_data self) ;;;
  if negb (isinstance_keras_Model discriminator) then
    Raise (expected_keras_Model discriminator)
  else
  let discriminator_weights_type := vars_to_type (weights discriminator) in
  let generator_weights_type := vars_to_type (weights generator) in
  let from_server_type := (generator_weights_type, discriminator_weights_type) in
  let client_gen_input_type :=
    tff.type_at_clients (tff.SequenceType gen_input_type) in
  let client_real_data_type :=
    tff.type_at_clients (tff.SequenceType real_data_type) in
  let server_gen_input_type :=
    tff.type_at_server (tff.SequenceType gen_input_type) in
  aggregation_process <-
    select_aggregation_process
      (Args.train_discriminator_dp_average_query self)
      discriminator_weights_type ;;
  Ok (mkGanFnsAndTypes
        (Args.generator_model_fn self) (Args.discriminator_model_fn self)
        (Args.dummy_gen_input self) (Args.dummy_real_data self)
        (Args.train_generator_fn self) (Args.train_discriminator_fn self)
        (Args.server_disc_update_optimizer_fn self)
        (Args.train_discriminator_dp_average_query self)
        gen_input_type real_data_type from_server_type
        generator_weights_type discriminator_weights_type
        client_gen_input_type client_real_data_type server_gen_input_type
        aggregation_process generator discriminator).

(** ** Federated computations *)

(** Running a federated computation either returns or raises, and leaves a
    trace of the computations it invoked, in order. *)
Inductive Call : Type :=
| call_server_initial_state
| call_initialize
| call_client_computation
    (gen_inputs real_data : Dataset) (from_server : FromServer.t)
| call_next
    (st : tff.AggState) (value : list tff.Weights) (weight : option (list Qc))
| call_server_computation
    (server_state : ServerState.t) (gen_inputs : Dataset)
    (client_output : ClientOutput.t) (new_aggregation_state : tff.AggState).

Record Fed (A : Type) : Type := mkFed {
  outcome : Result A;
  trace : list Call
}.

Definition fed_ret {A} (a : A) : Fed A := mkFed (Ok a) [].

Definition fed_lift {A} (r : Result A) : Fed A := mkFed r [].

Definition fed_bind {A B} (m : Fed A) (k : A -> Fed B) : Fed B :=
  match outcome m with
  | Ok a => mkFed (outcome (k a)) (trace m ++ trace (k a))
  | Raise e => mkFed (Raise e) (trace m)
  end.

Notation "x <~ m ;; k" := (fed_bind m (fun x => k))
  (at level 61, m at next level, right associativity).

(** Invoking a computation: the call is recorded, whatever its outcome. *)
Definition invoke {A} (c : Call) (r : Result A) : Fed A := mkFed r [c].

Fixpoint fed_mapM {A B} (f : A -> Fed B) (xs : list A) : Fed (list B) :=
  match xs with
  | [] => fed_ret []
  | x :: xs' => y <~ f x ;; ys <~ fed_mapM f xs' ;; fed_ret (y :: ys)
  end.

(** [tff.federated_broadcast]: one value for all clients. *)
Definition federated_broadcast {A} (v : A) : tff.AtClients A :=
  tff.all_equal v.

(** The argument tuple of [tff.federated_map] at the clients: the
    per-client datasets are zipped with the broadcast value; all
    components must be placed at the same clients. *)
Definition federated_zip_clients {A}
  (gen_inputs real_data : list Dataset) (client_input : tff.AtClients A)
  : Result (list (Dataset * Dataset * A)) :=
  if negb (Nat.eqb (List.length gen_inputs) (List.length real_data)) then
    Raise (ValueError "arguments are placed at different clients")
  else
    match client_input with
    | tff.all_equal v =>
        Ok (map (fun gr => (fst gr, snd gr, v)) (combine gen_inputs real_data))
    | tff.per_client vs =>
        if negb (Nat.eqb (List.length gen_inputs) (List.length vs)) then
          Raise (ValueError "arguments are placed at different clients")
        else Ok (combine (combine gen_inputs real_data) vs)
    end.

(** [tff.federated_sum] of the clients' counters, position by position.
    A stand-in like the tensor arithmetic above: the integers are not
    bounded, and the sum over no client, zeros of the counters' type, is
    the empty structure here. *)
Definition federated_sum_counters (cs : list Counters) : Counters :=
  match cs with
  | [] => []
  | c :: cs' => fold_left (tff.zip_with Z.add) cs' c
  end.

Section Orchestration.

Variable fns : gan_training_tf_fns.impl.

(** *** The computation builders *)

Definition build_server_initial_state_comp (gan : GanFnsAndTypes)
  : Fed ServerState.t :=
  let generator := generator_model_fn gan tt in
  let discriminator := discriminator_model_fn gan tt in
  invoke call_server_initial_state
    (gan_training_tf_fns.server_initial_state fns generator discriminator).

Definition build_client_computation (gan : GanFnsAndTypes)
  (gen_inputs real_data : Dataset) (from_server : FromServer.t)
  : Fed ClientOutput.t :=
  invoke (call_client_computation gen_inputs real_data from_server)
    (gan_training_tf_fns.client_computation fns
       gen_inputs real_data from_server
       (generator_model_fn gan tt) (discriminator_model_fn gan tt)
       (train_discriminator_fn gan)).

(** The declared parameter types of the wrapped computation are static;
    values here are typed by their records. *)
Definition build_server_computation (gan : GanFnsAndTypes)
  (server_state : ServerState.t) (gen_inputs : Dataset)
  (client_output : ClientOutput.t) (new_aggregation_state : tff.AggState)
  : Fed ServerState.t :=
  invoke (call_server_computation server_state gen_inputs client_output
            new_aggregation_state)
    (gan_training_tf_fns.server_computation fns
       server_state gen_inputs client_output
       (generator_model_fn gan tt) (discriminator_model_fn gan tt)
       (server_disc_update_optimizer_fn gan tt) (train_generator_fn gan)
       new_aggregation_state).

(** *** The two computations of [build_gan_training_process] *)

Definition aggregation_initialize (p : tff.AggregationProcess)
  : Fed tff.AggState :=
  invoke call_initialize (Ok (tff.initialize p)).

Definition aggregation_next (p : tff.AggregationProcess)
  (st : tff.AggState) (value : list tff.Weights) (weight : option (list Qc))
  : Fed tff.MeasuredProcessOutput :=
  invoke (call_next st value weight) (tff.next p st value weight).

Definition fed_server_initial_state (gan : GanFnsAndTypes)
  : Fed ServerState.t :=
  state <~ build_server_initial_state_comp gan ;;
  aggregation_state <~ aggregation_initialize (aggregation_process gan) ;;
  fed_ret (ServerState.mk
             (ServerState.generator_weights state)
             (ServerState.discriminator_weights state)
             (ServerState.counters state)
             aggregation_state).

Definition run_one_round (gan : GanFnsAndTypes)
  (server_state : ServerState.t) (server_gen_inputs : Dataset)
  (client_gen_inputs client_real_data : list Dataset) : Fed ServerState.t :=
  let from_server :=
    FromServer.mk (ServerState.generator_weights server_state)
                  (ServerState.discriminator_weights server_state) in
  let client_input := federated_broadcast from_server in
  client_args <~
    fed_lift (federated_zip_clients client_gen_inputs client_real_data
                client_input) ;;
  client_outputs <~
    fed_mapM (fun a => build_client_computation gan (fst (fst a)) (snd (fst a))
                         (snd a))
      client_args ;;
  aggregation_output <~
    (if tff.is_weighted (aggregation_process gan) then
       aggregation_next (aggregation_process gan)
         (ServerState.aggregation_state server_state)
         (map ClientOutput.discriminator_weights_delta client_outputs)
         (Some (map ClientOutput.update_weight client_outputs))
     else
       aggregation_next (aggregation_process gan)
         (ServerState.aggregation_state server_state)
         (map ClientOutput.discriminator_weights_delta client_outputs)
         None) ;;
  let new_aggregation_state := tff.state aggregation_output in
  let averaged_discriminator_weights_delta := tff.result aggregation_output in
  let aggregated_client_output :=
    ClientOutput.mk averaged_discriminator_weights_delta
      (tff.federated_sum_scalar
         (map ClientOutput.update_weight client_outputs))
      (federated_sum_counters (map ClientOutput.counters client_outputs)) in
  build_server_computation gan server_state server_gen_inputs
    aggregated_client_output new_aggregation_state.

(** [tff.templates.IterativeProcess(initialize, next)]. *)
Record IterativeProcess : Type := mkIterativeProcess {
  iter_initialize : Fed ServerState.t;
  iter_next :
    ServerState.t -> Dataset -> list Dataset -> list Dataset ->
    Fed ServerState.t
}.

Definition build_gan_training_process (gan : GanFnsAndTypes)
  : IterativeProcess :=
  mkIterativeProcess (fed_server_initial_state gan) (run_one_round gan).

End Orchestration.

(** ** Notions the statements below use *)

Definition Qc_of_nat (n : nat) : Qc := Q2Qc (inject_Z (Z.of_nat n)).

(** A weights type whose dimensions are all known, as the type of a
    model's weights is. *)
Definition fully_defined (type : tff.WeightsType) : bool :=
  forallb (fun spec =>
             forallb (fun d => match d with Some _ => true | None => false end)
               (tf.spec_shape spec))
    type.

(** A leaf that [tf.convert_to_tensor] accepts. *)
Definition convertible (v : tf.PyLeaf) : bool :=
  match v with
  | tf.ArrayLike _ => true
  | tf.NotArrayLike _ => false
  end.

(** An array-like leaf with at least one dimension. *)
Definition has_batch_dimension (v : tf.PyLeaf) : bool :=
  match v with
  | tf.ArrayLike t => negb (Nat.eqb (List.length (tf.dims t)) 0)
  | tf.NotArrayLike _ => false
  end.

(** What the specification asks of the signature of one leaf: the dtype
    of the leaf, as many dimensions, the first unbound, the others as in
    the leaf. *)
Definition leaf_signature (v : tf.PyLeaf) (spec : tf.TensorSpec) : Prop :=
  exists t, v = tf.ArrayLike t
    /\ tf.spec_dtype spec = tf.dtype t
    /\ List.length (tf.spec_shape spec) = List.length (tf.dims t)
    /\ nth_error (tf.spec_shape spec) 0 = Some None
    /\ forall i d, (1 <= i)%nat -> nth_error (tf.dims t) i = Some d ->
         nth_error (tf.spec_shape spec) i = Some (Some d).

(** What [tf.nest.map_structure] does to one field of a mapping. *)
Definition map_field {A B} (func : A -> Result B) (kv : string * tf.Nest A)
  : Result (string * tf.Nest B) :=
  y <- tf.nest.map_structure func (snd kv) ;; Ok (fst kv, y).

(** The payload of a round, and the call by which one client is handed
    its datasets and the payload. *)
Definition payload_of (server_state : ServerState.t) : FromServer.t :=
  FromServer.mk (ServerState.generator_weights server_state)
                (ServerState.discriminator_weights server_state).

Definition client_call (payload : FromServer.t) (gr : Dataset * Dataset)
  : Call :=
  call_client_computation (fst gr) (snd gr) payload.

Definition is_call_next (c : Call) : bool :=
  match c with
  | call_next _ _ _ => true
  | _ => false
  end.

Definition is_call_client_computation (c : Call) : bool :=
  match c with
  | call_client_computation _ _ _ => true
  | _ => false
  end.

(** The client stage of a round as plain function application: every
    client's datasets with one payload. *)
Definition client_stage (fns : gan_training_tf_fns.impl)
  (gan : GanFnsAndTypes) (payload : FromServer.t)
  (client_gen_inputs client_real_data : list Dataset)
  : Result (list ClientOutput.t) :=
  if negb (Nat.eqb (List.length client_gen_inputs)
                   (List.length client_real_data)) then
    Raise (ValueError "arguments are placed at different clients")
  else
    mapM (fun gr =>
            gan_training_tf_fns.client_computation fns (fst gr) (snd gr)
              payload (generator_model_fn gan tt)
              (discriminator_model_fn gan tt) (train_discriminator_fn gan))
      (combine client_gen_inputs client_real_data).

(** Steps (a) to (f) of the constructor: everything before the choice of
    the aggregation process.  Returns the discriminator weights type. *)
Definition derive_types (self : Args.t) : Result tff.WeightsType :=
  tensor_spec_for_batch (Args.dummy_gen_input self) ;;;
  tensor_spec_for_batch (Args.dummy_real_data self) ;;;
  let generator := Args.generator_model_fn self tt in
  py_call generator (Args.dummy_gen_input self) ;;;
  if negb (isinstance_keras_Model generator) then
    Raise (expected_keras_Model generator)
  else
  let discriminator := Args.discriminator_model_fn self tt in
  py_call discriminator (Args.dummy_real_data self) ;;;
  if negb (isinstance_keras_Model discriminator) then
    Raise (expected_keras_Model discriminator)
  else Ok (vars_to_type (weights discriminator)).

Definition with_query (self : Args.t) (query : option tff.PyQuery) : Args.t :=
  Args.mk (Args.generator_model_fn self) (Args.discriminator_model_fn self)
    (Args.dummy_gen_input self) (Args.dummy_real_data self)
    (Args.train_generator_fn self) (Args.train_discriminator_fn self)
    (Args.server_disc_update_optimizer_fn self) query.

(** The two model factories of the constructor, and how far the
    constructor gets before its [isinstance] check of a factory's object:
    both dummy batches have a signature, the generator accepts its dummy
    input and, for the discriminator's check, the generator passed its own
    check and the discriminator accepts its dummy input. *)
Inductive Factory : Type :=
| generator_factory
| discriminator_factory.

Definition made_by (self : Args.t) (f : Factory) : PyObj :=
  match f with
  | generator_factory => Args.generator_model_fn self tt
  | discriminator_factory => Args.discriminator_model_fn self tt
  end.

Definition reaches_isinstance_check (self : Args.t) (f : Factory) : bool :=
  succeeds (tensor_spec_for_batch (Args.dummy_gen_input self))
  && succeeds (tensor_spec_for_batch (Args.dummy_real_data self))
  && succeeds (py_call (Args.generator_model_fn self tt)
                 (Args.dummy_gen_input self))
  && match f with
     | generator_factory => true
     | discriminator_factory =>
         isinstance_keras_Model (Args.generator_model_fn self tt)
         && succeeds (py_call (Args.discriminator_model_fn self tt)
                        (Args.dummy_real_data self))
     end.

(** ** Concrete objects for the examples *)

Module Examples.

Definition q (z : Z) : Qc := Q2Qc (inject_Z z).

Definition scalar : tf.PyLeaf := tf.ArrayLike (tf.mkTensor tf.float32 [] [q 7]).

Definition noise_batch : tf.Nest tf.PyLeaf :=
  tf.Leaf (tf.ArrayLike (tf.mkTensor tf.float32 [1; 2]%nat [q 0; q 1])).

Definition image_fields : list (string * tf.Nest tf.PyLeaf) :=
  [("image", tf.Leaf (tf.ArrayLike
               (tf.mkTensor tf.uint8 [1; 2; 2]%nat [q 0; q 1; q 2; q 3])));
   ("label", tf.Leaf (tf.ArrayLike (tf.mkTensor tf.int64 [1]%nat [q 5])))].

Definition image_batch : tf.Nest tf.PyLeaf :=
  tf.NNamedTuple "Batch" image_fields.

Definition keras_model (w : tff.Weights) : PyObj :=
  mkPyObj "<class 'keras.engine.sequential.Sequential'>" true
    (fun _ => Ok tt) w.

Definition generator : PyObj :=
  keras_model [tf.mkTensor tf.float32 [1]%nat [q 1]].

Definition discriminator : PyObj :=
  keras_model [tf.mkTensor tf.float32 [2]%nat [q 0; q 0]].

(** A callable that is not a Keras model. *)
Definition plain_function : PyObj :=
  mkPyObj "<class 'function'>" false (fun _ => Ok tt) [].

(** An object that is not a Keras model and rejects the batch. *)
Definition picky_function : PyObj :=
  mkPyObj "<class 'function'>" false
    (fun _ => Raise (ValueError "unexpected input")) [].

Definition args (gen disc : PyObj) (query : option tff.PyQuery) : Args.t :=
  Args.mk (fun _ => gen) (fun _ => disc) noise_batch image_batch
    (py_callable "train_generator_fn") (py_callable "train_discriminator_fn")
    (fun _ => py_callable "SGD") query.

(** A query that only averages: no clipping, no noise; its state is the
    denominator. *)
Definition average_query (denominator : Qc) : tff.DPQuery :=
  tff.mkDPQuery [denominator] (fun st => st) (fun _ record => record)
    (fun total st =>
       (map (fun t => tff.tensor_div t (hd 0%Qc st)) total, st)).

Definition normalized_query : tff.PyQuery :=
  tff.QueryObject true (average_query (q 2)).

Definition unnormalized_query : tff.PyQuery :=
  tff.QueryObject false (average_query (q 2)).

Definition delta (a b : Z) : tff.Weights :=
  [tf.mkTensor tf.float32 [2]%nat [q a; q b]].

(** Stand-ins for the three functions of [gan_training_tf_fns]: the
    client returns its weights scaled by the size of its data. *)
Definition fns : gan_training_tf_fns.impl :=
  gan_training_tf_fns.mk
    (fun g d => Ok (ServerState.mk (weights g) (weights d) [0%Z] []))
    (fun gen_inputs real_data from_server _ _ _ =>
       Ok (ClientOutput.mk
             (delta (Z.of_nat (List.length real_data)) 0)
             (Qc_of_nat (List.length real_data))
             [Z.of_nat (List.length real_data)]))
    (fun st _ out _ _ _ _ agg =>
       Ok (ServerState.mk
             (ServerState.generator_weights st)
             (tff.zip_with tff.tensor_add (ServerState.discriminator_weights st)
                (ClientOutput.discriminator_weights_delta out))
             (tff.zip_with Z.add (ServerState.counters st)
                (ClientOutput.counters out))
             agg)).

(** The context [GanFnsAndTypes(...)] returns, where it returns. *)
Definition unwrap {A : Type} (r : Result A)
  : match r return Type with Ok _ => A | Raise _ => unit end :=
  match r with
  | Ok a => a
  | Raise _ => tt
  end.

Definition gan_mean : GanFnsAndTypes :=
  @unwrap GanFnsAndTypes
    (attrs_post_init (args generator discriminator None)).

Definition gan_dp : GanFnsAndTypes :=
  @unwrap GanFnsAndTypes
    (attrs_post_init (args generator discriminator (Some normalized_query))).

(** Two clients, with one and with two batches of real data. *)
Definition client_gen_inputs : list Dataset :=
  [[noise_batch]; [noise_batch; noise_batch]].

Definition client_real_data : list Dataset :=
  [[image_batch]; [image_batch; image_batch]].

Definition server_state0 : ServerState.t :=
  ServerState.mk (weights generator) (weights discriminator) [0%Z] [].

End Examples.

(** ** Further notions *)

(** Applying a function to every leaf of a structure, and the containers
    of a structure without its leaves. *)
Fixpoint nest_map {A B} (f : A -> B) (s : tf.Nest A) : tf.Nest B :=
  match s with
  | tf.Leaf a => tf.Leaf (f a)
  | tf.NList xs => tf.NList (map (nest_map f) xs)
  | tf.NTuple xs => tf.NTuple (map (nest_map f) xs)
  | tf.NDict kvs =>
      tf.NDict (map (fun kv => let '(k, x) := kv in (k, nest_map f x)) kvs)
  | tf.NNamedTuple cls kvs =>
      tf.NNamedTuple cls
        (map (fun kv => let '(k, x) := kv in (k, nest_map f x)) kvs)
  end.

Definition skeleton {A} (s : tf.Nest A) : tf.Nest unit :=
  nest_map (fun _ => tt) s.

(** A batch of [n] zero examples in place of an array-like leaf that has
    a batch dimension; other leaves are left alone. *)
Definition rebatch (n : nat) (v : tf.PyLeaf) : tf.PyLeaf :=
  match v with
  | tf.ArrayLike t =>
      match tf.dims t with
      | [] => v
      | _ :: ds =>
          tf.ArrayLike
            (tf.mkTensor (tf.dtype t) (n :: ds)
               (repeat 0%Qc (n * tff.num_elements ds)))
      end
  | tf.NotArrayLike _ => v
  end.

(** A shape whose leading dimension is unbound and whose other
    dimensions are known. *)
Definition only_batch_unbound (spec : tf.TensorSpec) : Prop :=
  exists ds, tf.spec_shape spec = None :: map Some ds.

(** The weight argument of the round's call of [next]. *)
Definition next_weight (gan : GanFnsAndTypes)
  (client_outputs : list ClientOutput.t) : option (list Qc) :=
  if tff.is_weighted (aggregation_process gan)
  then Some (map ClientOutput.update_weight client_outputs)
  else None.

(** The aggregated client output of a round, given the output of the
    aggregation process. *)
Definition aggregated_output (averaged : tff.Weights)
  (client_outputs : list ClientOutput.t) : ClientOutput.t :=
  ClientOutput.mk averaged
    (tff.federated_sum_scalar (map ClientOutput.update_weight client_outputs))
    (federated_sum_counters (map ClientOutput.counters client_outputs)).

(** [gan_training_tf_fns.server_computation] with the objects the context
    provides. *)
Definition server_step (fns : gan_training_tf_fns.impl)
  (gan : GanFnsAndTypes) (server_state : ServerState.t)
  (gen_inputs : Dataset) (client_output : ClientOutput.t)
  (new_aggregation_state : tff.AggState) : Result ServerState.t :=
  gan_training_tf_fns.server_computation fns server_state gen_inputs
    client_output (generator_model_fn gan tt) (discriminator_model_fn gan tt)
    (server_disc_update_optimizer_fn gan tt) (train_generator_fn gan)
    new_aggregation_state.

Module Scenarios.

(** One round of two clients without a privacy query. *)
Definition server_state : ServerState.t := Examples.server_state0.

Definition client_outputs : list ClientOutput.t :=
  @Examples.unwrap (list ClientOutput.t)
    (client_stage Examples.fns Examples.gan_mean (payload_of server_state)
       Examples.client_gen_inputs Examples.client_real_data).

Definition aggregation_output : tff.MeasuredProcessOutput :=
  @Examples.unwrap tff.MeasuredProcessOutput
    (tff.next (aggregation_process Examples.gan_mean)
       (ServerState.aggregation_state server_state)
       (map ClientOutput.discriminator_weights_delta client_outputs)
       (next_weight Examples.gan_mean client_outputs)).

(** Stand-ins for [gan_training_tf_fns] whose parts raise: at start, at
    the second client (the one with two batches), and never. *)
Definition failing_start : gan_training_tf_fns.impl :=
  gan_training_tf_fns.mk
    (fun _ _ => Raise (ValueError "no initial state"))
    (gan_training_tf_fns.client_computation Examples.fns)
    (gan_training_tf_fns.server_computation Examples.fns).

Definition failing_client : gan_training_tf_fns.impl :=
  gan_training_tf_fns.mk
    (gan_training_tf_fns.server_initial_state Examples.fns)
    (fun gen_inputs real_data from_server g d train =>
       if Nat.eqb (List.length real_data) 2 then
         Raise (ValueError "client dropped out")
       else
         gan_training_tf_fns.client_computation Examples.fns
           gen_inputs real_data from_server g d train)
    (gan_training_tf_fns.server_computation Examples.fns).

(** Clients whose deltas do not have the type of the discriminator
    weights: the aggregation process rejects them. *)
Definition misshapen_clients : gan_training_tf_fns.impl :=
  gan_training_tf_fns.mk
    (gan_training_tf_fns.server_initial_state Examples.fns)
    (fun _ real_data _ _ _ _ =>
       Ok (ClientOutput.mk [] (Qc_of_nat (List.length real_data)) []))
    (gan_training_tf_fns.server_computation Examples.fns).

Definition unconvertible_batch : tf.Nest tf.PyLeaf :=
  tf.NList [tf.Leaf (tf.NotArrayLike "<class 'NoneType'>")].

Definition args_bad_batch : Args.t :=
  Args.mk (fun _ => Examples.plain_function) (fun _ => Examples.plain_function)
    unconvertible_batch Examples.image_batch
    (py_callable "train_generator_fn") (py_callable "train_discriminator_fn")
    (fun _ => py_callable "SGD") None.

End Scenarios.

(** * Properties *)

(** ** The error monad *)

Lemma bind_Ok_inv {A B} (r : Result A) (k : A -> Result B) (b : B) :
  bind r k = Ok b -> exists a, r = Ok a /\ k a = Ok b.
Proof.
  destruct r as [a|e]; simpl; intros H; [eauto | discriminate].
Qed.

Lemma mapM_Forall2 {A B} (f : A -> Result B) (xs : list A) (ys : list B) :
  mapM f xs = Ok ys -> Forall2 (fun x y => f x = Ok y) xs ys.
Proof.
  revert ys; induction xs as [|x xs IH]; simpl; intros ys H.
  - injection H as <-. constructor.
  - apply bind_Ok_inv in H as (y & Hy & H).
    apply bind_Ok_inv in H as (ys' & Hys & H).
    injection H as <-. constructor; auto.
Qed.

Lemma mapM_succeeds {A B} (f : A -> Result B) (xs : list A) :
  succeeds (mapM f xs) = forallb (fun x => succeeds (f x)) xs.
Proof.
  induction xs as [|x xs IH]; simpl; [reflexivity|].
  destruct (f x) as [y|e]; simpl; [|reflexivity].
  rewrite <- IH. destruct (mapM f xs); reflexivity.
Qed.

Lemma mapM_Raise_inv {A B} (f : A -> Result B) (xs : list A) (e : Exn) :
  mapM f xs = Raise e -> exists x, In x xs /\ f x = Raise e.
Proof.
  induction xs as [|x xs IH]; simpl; [discriminate|].
  destruct (f x) as [y|e'] eqn:Hx; simpl.
  - destruct (mapM f xs) as [ys|e'']; simpl; [discriminate|].
    intros H. injection H as ->. destruct IH as (x' & Hin & Hx'); eauto.
  - intros H. injection H as ->. eauto.
Qed.

(** ** Nested structures *)

Section NestInduction.

Variables (A : Type) (P : tf.Nest A -> Prop).
Hypothesis HLeaf : forall a, P (tf.Leaf a).
Hypothesis HList : forall xs, Forall P xs -> P (tf.NList xs).
Hypothesis HTuple : forall xs, Forall P xs -> P (tf.NTuple xs).
Hypothesis HDict :
  forall kvs, Forall (fun kv => P (snd kv)) kvs -> P (tf.NDict kvs).
Hypothesis HNamedTuple :
  forall cls kvs, Forall (fun kv => P (snd kv)) kvs ->
                  P (tf.NNamedTuple cls kvs).

Lemma Nest_induction : forall s, P s.
Proof.
  fix IH 1. intros [a|xs|xs|kvs|cls kvs].
  - apply HLeaf.
  - apply HList. induction xs as [|x xs IHxs]; constructor; auto.
  - apply HTuple. induction xs as [|x xs IHxs]; constructor; auto.
  - apply HDict. induction kvs as [|[k x] kvs IHkvs]; constructor; auto.
  - apply HNamedTuple.
    induction kvs as [|[k x] kvs IHkvs]; constructor; auto.
Qed.

End NestInduction.

Lemma map_structure_NList {A B} (func : A -> Result B) xs :
  tf.nest.map_structure func (tf.NList xs)
  = (ys <- mapM (tf.nest.map_structure func) xs ;; Ok (tf.NList ys)).
Proof.
  simpl. f_equal. induction xs as [|x xs IH]; simpl; [reflexivity|].
  rewrite IH. reflexivity.
Qed.

Lemma map_structure_NTuple {A B} (func : A -> Result B) xs :
  tf.nest.map_structure func (tf.NTuple xs)
  = (ys <- mapM (tf.nest.map_structure func) xs ;; Ok (tf.NTuple ys)).
Proof.
  simpl. f_equal. induction xs as [|x xs IH]; simpl; [reflexivity|].
  rewrite IH. reflexivity.
Qed.

Lemma map_structure_NDict {A B} (func : A -> Result B) kvs :
  tf.nest.map_structure func (tf.NDict kvs)
  = (ys <- mapM (map_field func) kvs ;; Ok (tf.NDict ys)).
Proof.
  simpl. f_equal. induction kvs as [|[k x] kvs IH]; simpl; [reflexivity|].
  rewrite IH. unfold map_field. simpl.
  destruct (tf.nest.map_structure func x); reflexivity.
Qed.

Lemma map_structure_NNamedTuple {A B} (func : A -> Result B) cls kvs :
  tf.nest.map_structure func (tf.NNamedTuple cls kvs)
  = (ys <- mapM (map_field func) kvs ;; Ok (tf.NNamedTuple cls ys)).
Proof.
  simpl. f_equal. induction kvs as [|[k x] kvs IH]; simpl; [reflexivity|].
  rewrite IH. unfold map_field. simpl.
  destruct (tf.nest.map_structure func x); reflexivity.
Qed.

Lemma Forall2_flat_map {A B C D} (R : C -> D -> Prop)
  (f : A -> list C) (g : B -> list D) (xs : list A) (ys : list B) :
  Forall2 (fun x y => Forall2 R (f x) (g y)) xs ys ->
  Forall2 R (flat_map f xs) (flat_map g ys).
Proof.
  induction 1; simpl; [constructor | apply Forall2_app; assumption].
Qed.

Lemma forallb_flat_map {A B} (p : B -> bool) (f : A -> list B) (xs : list A) :
  forallb p (flat_map f xs) = forallb (fun x => forallb p (f x)) xs.
Proof.
  induction xs as [|x xs IH]; simpl; [reflexivity|].
  rewrite forallb_app, IH. reflexivity.
Qed.

Lemma forallb_Forall_ext {A} (p q : A -> bool) (xs : list A) :
  Forall (fun x => p x = q x) xs -> forallb p xs = forallb q xs.
Proof.
  induction 1 as [|x xs Hx _ IH]; simpl; [reflexivity|].
  rewrite Hx, IH. reflexivity.
Qed.

Lemma succeeds_bind_Ok {A B} (r : Result A) (g : A -> B) :
  succeeds (x <- r ;; Ok (g x)) = succeeds r.
Proof. destruct r; reflexivity. Qed.

Section MapStructure.

Context {A B : Type} (func : A -> Result B).

Lemma map_field_inv kv kv' :
  map_field func kv = Ok kv' ->
  fst kv' = fst kv /\ tf.nest.map_structure func (snd kv) = Ok (snd kv').
Proof.
  unfold map_field. intros H.
  apply bind_Ok_inv in H as (y & Hy & H). injection H as <-. auto.
Qed.

(** The leaves of the result are the images of the leaves, in order. *)
Lemma map_structure_leaves (s : tf.Nest A) :
  forall s', tf.nest.map_structure func s = Ok s' ->
             Forall2 (fun a b => func a = Ok b)
               (tf.nest.leaves s) (tf.nest.leaves s').
Proof.
  induction s as [a|xs IH|xs IH|kvs IH|cls kvs IH] using Nest_induction;
    intros s' H.
  - simpl in H. apply bind_Ok_inv in H as (b & Hb & H).
    injection H as <-. simpl. auto.
  - rewrite map_structure_NList in H.
    apply bind_Ok_inv in H as (ys & Hys & H). injection H as <-.
    apply mapM_Forall2 in Hys. simpl. apply Forall2_flat_map.
    induction Hys; inversion IH; subst; constructor; auto.
  - rewrite map_structure_NTuple in H.
    apply bind_Ok_inv in H as (ys & Hys & H). injection H as <-.
    apply mapM_Forall2 in Hys. simpl. apply Forall2_flat_map.
    induction Hys; inversion IH; subst; constructor; auto.
  - rewrite map_structure_NDict in H.
    apply bind_Ok_inv in H as (ys & Hys & H). injection H as <-.
    apply mapM_Forall2 in Hys. simpl. apply Forall2_flat_map.
    induction Hys as [|kv kv' ? ? Hkv]; inversion IH; subst; constructor; auto.
    apply map_field_inv in Hkv as [_ Hkv]. auto.
  - rewrite map_structure_NNamedTuple in H.
    apply bind_Ok_inv in H as (ys & Hys & H). injection H as <-.
    apply mapM_Forall2 in Hys. simpl. apply Forall2_flat_map.
    induction Hys as [|kv kv' ? ? Hkv]; inversion IH; subst; constructor; auto.
    apply map_field_inv in Hkv as [_ Hkv]. auto.
Qed.

Lemma succeeds_map_field kv :
  succeeds (map_field func kv)
  = succeeds (tf.nest.map_structure func (snd kv)).
Proof. unfold map_field. apply succeeds_bind_Ok. Qed.

(** The traversal returns exactly when [func] returns on every leaf. *)
Lemma map_structure_succeeds (s : tf.Nest A) :
  succeeds (tf.nest.map_structure func s)
  = forallb (fun a => succeeds (func a)) (tf.nest.leaves s).
Proof.
  induction s as [a|xs IH|xs IH|kvs IH|cls kvs IH] using Nest_induction.
  - simpl. destruct (func a); reflexivity.
  - rewrite map_structure_NList, succeeds_bind_Ok, mapM_succeeds. simpl.
    rewrite forallb_flat_map. apply forallb_Forall_ext, IH.
  - rewrite map_structure_NTuple, succeeds_bind_Ok, mapM_succeeds. simpl.
    rewrite forallb_flat_map. apply forallb_Forall_ext, IH.
  - rewrite map_structure_NDict, succeeds_bind_Ok, mapM_succeeds. simpl.
    rewrite forallb_flat_map. apply forallb_Forall_ext.
    eapply Forall_impl; [|exact IH]. intros kv Hkv.
    rewrite succeeds_map_field. exact Hkv.
  - rewrite map_structure_NNamedTuple, succeeds_bind_Ok, mapM_succeeds. simpl.
    rewrite forallb_flat_map. apply forallb_Forall_ext.
    eapply Forall_impl; [|exact IH]. intros kv Hkv.
    rewrite succeeds_map_field. exact Hkv.
Qed.

Lemma bind_Raise_inv {C D} (r : Result C) (g : C -> D) e :
  (x <- r ;; Ok (g x)) = Raise e -> r = Raise e.
Proof. destruct r; simpl; intros H; [discriminate | congruence]. Qed.

(** An exception of the traversal is an exception of [func] on a leaf. *)
Lemma map_structure_Raise (s : tf.Nest A) :
  forall e, tf.nest.map_structure func s = Raise e ->
            exists a, In a (tf.nest.leaves s) /\ func a = Raise e.
Proof.
  induction s as [a|xs IH|xs IH|kvs IH|cls kvs IH] using Nest_induction;
    intros e H.
  - simpl in H. apply bind_Raise_inv in H. exists a. simpl. auto.
  - rewrite map_structure_NList in H. apply bind_Raise_inv in H.
    apply mapM_Raise_inv in H as (x & Hin & Hx).
    rewrite Forall_forall in IH. destruct (IH x Hin e Hx) as (a & Ha & Hf).
    exists a. split; [|exact Hf]. simpl. apply in_flat_map. eauto.
  - rewrite map_structure_NTuple in H. apply bind_Raise_inv in H.
    apply mapM_Raise_inv in H as (x & Hin & Hx).
    rewrite Forall_forall in IH. destruct (IH x Hin e Hx) as (a & Ha & Hf).
    exists a. split; [|exact Hf]. simpl. apply in_flat_map. eauto.
  - rewrite map_structure_NDict in H. apply bind_Raise_inv in H.
    apply mapM_Raise_inv in H as (kv & Hin & Hx).
    unfold map_field in Hx. apply bind_Raise_inv in Hx.
    rewrite Forall_forall in IH. destruct (IH kv Hin e Hx) as (a & Ha & Hf).
    exists a. split; [|exact Hf]. simpl. apply in_flat_map. eauto.
  - rewrite map_structure_NNamedTuple in H. apply bind_Raise_inv in H.
    apply mapM_Raise_inv in H as (kv & Hin & Hx).
    unfold map_field in Hx. apply bind_Raise_inv in Hx.
    rewrite Forall_forall in IH. destruct (IH kv Hin e Hx) as (a & Ha & Hf).
    exists a. split; [|exact Hf]. simpl. apply in_flat_map. eauto.
Qed.

End MapStructure.

(** ** The type deriver *)

Lemma tensor_spec_for_batch_asdict (b : tf.Nest tf.PyLeaf) :
  tensor_spec_for_batch b
  = tf.nest.map_structure get_tensor_spec (asdict b).
Proof. destruct b; reflexivity. Qed.

Lemma leaves_asdict {A} (b : tf.Nest A) :
  tf.nest.leaves (asdict b) = tf.nest.leaves b.
Proof. destruct b; reflexivity. Qed.

Lemma succeeds_get_tensor_spec (v : tf.PyLeaf) :
  succeeds (get_tensor_spec v) = convertible v.
Proof. destruct v; reflexivity. Qed.

Lemma get_tensor_spec_Raise (v : tf.PyLeaf) (e : Exn) :
  get_tensor_spec v = Raise e -> e = TensorConversionError.
Proof. destruct v; unfold get_tensor_spec; simpl; congruence. Qed.

Lemma tensor_spec_for_batch_succeeds (b : tf.Nest tf.PyLeaf) :
  succeeds (tensor_spec_for_batch b)
  = forallb convertible (tf.nest.leaves b).
Proof.
  rewrite tensor_spec_for_batch_asdict, map_structure_succeeds, leaves_asdict.
  apply forallb_Forall_ext, Forall_forall. intros v _.
  apply succeeds_get_tensor_spec.
Qed.

Lemma has_batch_dimension_convertible (v : tf.PyLeaf) :
  has_batch_dimension v = true -> convertible v = true.
Proof. destruct v; simpl; [reflexivity | discriminate]. Qed.

Lemma get_tensor_spec_signature (v : tf.PyLeaf) (spec : tf.TensorSpec) :
  has_batch_dimension v = true -> get_tensor_spec v = Ok spec ->
  leaf_signature v spec.
Proof.
  destruct v as [t|name]; unfold get_tensor_spec; simpl; [|discriminate].
  intros Hrank H. injection H as <-. exists t.
  destruct (tf.dims t) as [|d ds] eqn:Hdims; simpl in *; [discriminate|].
  repeat split.
  - rewrite length_map. reflexivity.
  - intros [|i] d' Hi Hnth; [lia|]. simpl in *.
    apply map_nth_error. exact Hnth.
Qed.

(** C4, as the code has it.  The deriver raises exactly when some leaf of
    the batch cannot be converted to a tensor, and returns a signature
    otherwise; the number of dimensions of a leaf plays no part, so a
    zero-dimensional leaf is accepted. *)
Theorem tensor_spec_for_batch_raises_iff (b : tf.Nest tf.PyLeaf) :
  (tensor_spec_for_batch b = Raise TensorConversionError
   <-> exists v, In v (tf.nest.leaves b) /\ convertible v = false)
  /\ ((exists sig, tensor_spec_for_batch b = Ok sig)
      <-> forall v, In v (tf.nest.leaves b) -> convertible v = true).
Proof.
  pose proof (tensor_spec_for_batch_succeeds b) as Hs.
  split; split.
  - intros H. rewrite H in Hs. simpl in Hs. symmetry in Hs.
    apply not_true_iff_false in Hs. rewrite forallb_forall in Hs.
    destruct (existsb (fun v => negb (convertible v)) (tf.nest.leaves b))
      eqn:Hex.
    + apply existsb_exists in Hex as (v & Hin & Hv).
      exists v. split; [exact Hin|]. now apply negb_true_iff.
    + exfalso. apply Hs. intros v Hin.
      rewrite <- not_true_iff_false in Hex. rewrite existsb_exists in Hex.
      destruct (convertible v) eqn:Hv; [reflexivity|].
      exfalso. apply Hex. exists v. rewrite Hv. auto.
  - intros (v & Hin & Hv).
    destruct (tensor_spec_for_batch b) as [sig|e] eqn:Hb.
    + simpl in Hs. symmetry in Hs. rewrite forallb_forall in Hs.
      rewrite (Hs v Hin) in Hv. discriminate.
    + f_equal. rewrite tensor_spec_for_batch_asdict in Hb.
      apply map_structure_Raise in Hb as (a & _ & Ha).
      eapply get_tensor_spec_Raise; eauto.
  - intros (sig & H). rewrite H in Hs. simpl in Hs. symmetry in Hs.
    rewrite forallb_forall in Hs. exact Hs.
  - intros H. rewrite <- forallb_forall in H. rewrite H in Hs.
    destruct (tensor_spec_for_batch b) as [sig|e]; [eauto | discriminate].
Qed.

(** C4, as stated, fails on a zero-dimensional leaf: a Python number has
    no dimension, yet the deriver returns a signature of shape [[None]]. *)
Lemma tensor_spec_for_batch_accepts_scalar :
  has_batch_dimension Examples.scalar = false
  /\ In Examples.scalar (tf.nest.leaves (tf.Leaf Examples.scalar))
  /\ tensor_spec_for_batch (tf.Leaf Examples.scalar)
     = Ok (tf.Leaf (tf.mkTensorSpec [None] tf.float32)).
Proof. repeat split. simpl. auto. Qed.

(** C5.  On a batch whose leaves are all array-like with at least one
    dimension the deriver returns a signature; leaf by leaf, the dtype is
    that of the input leaf and the shape is that of the input leaf with
    the leading dimension unbound. *)
Theorem tensor_spec_for_batch_valid (b : tf.Nest tf.PyLeaf) :
  forallb has_batch_dimension (tf.nest.leaves b) = true ->
  exists sig, tensor_spec_for_batch b = Ok sig
    /\ Forall2 leaf_signature (tf.nest.leaves b) (tf.nest.leaves sig).
Proof.
  intros Hvalid.
  assert (Hs : succeeds (tensor_spec_for_batch b) = true).
  { rewrite tensor_spec_for_batch_succeeds. rewrite forallb_forall in *.
    intros v Hin. apply has_batch_dimension_convertible. auto. }
  destruct (tensor_spec_for_batch b) as [sig|e] eqn:Hb; [|discriminate].
  exists sig. split; [reflexivity|].
  rewrite tensor_spec_for_batch_asdict in Hb.
  apply map_structure_leaves in Hb. rewrite leaves_asdict in Hb.
  induction Hb as [|v spec vs specs Hv _ IH]; [constructor|].
  simpl in Hvalid. apply andb_prop in Hvalid as [Hrank Hrest].
  constructor; [apply get_tensor_spec_signature; assumption | auto].
Qed.

Lemma tensor_spec_for_batch_valid_witness :
  exists sig, tensor_spec_for_batch Examples.image_batch = Ok sig
    /\ Forall2 leaf_signature
         (tf.nest.leaves Examples.image_batch) (tf.nest.leaves sig).
Proof. apply (tensor_spec_for_batch_valid Examples.image_batch). reflexivity. Defined.

(** C10.  For a named tuple with convertible leaves the signature is a
    mapping keyed by the field names, not a named tuple: it has the fields
    of the input, in the same order, and each field holds the signature of
    that field's value. *)
Theorem tensor_spec_for_batch_namedtuple
  (cls : string) (kvs : list (string * tf.Nest tf.PyLeaf)) :
  forallb convertible (tf.nest.leaves (tf.NNamedTuple cls kvs)) = true ->
  exists fields,
    tensor_spec_for_batch (tf.NNamedTuple cls kvs) = Ok (tf.NDict fields)
    /\ hasattr_asdict (tf.NDict fields) = false
    /\ map fst fields = map fst kvs
    /\ Forall2 (fun kv field =>
                  tf.nest.map_structure get_tensor_spec (snd kv)
                  = Ok (snd field))
         kvs fields.
Proof.
  intros Hvalid. rewrite <- tensor_spec_for_batch_succeeds in Hvalid.
  rewrite tensor_spec_for_batch_asdict in *. simpl asdict in *.
  rewrite map_structure_NDict in *.
  destruct (mapM (map_field get_tensor_spec) kvs) as [fields|e] eqn:Hm;
    [|discriminate].
  exists fields. split; [reflexivity|]. split; [reflexivity|].
  apply mapM_Forall2 in Hm. clear Hvalid.
  induction Hm as [|kv field ? ? Hkv _ [IH1 IH2]]; [split; constructor|].
  apply map_field_inv in Hkv as [Hk Hv]. simpl.
  split; [congruence | constructor; assumption].
Qed.

Lemma tensor_spec_for_batch_namedtuple_witness :
  exists fields,
    tensor_spec_for_batch (tf.NNamedTuple "Batch" Examples.image_fields)
    = Ok (tf.NDict fields)
    /\ hasattr_asdict (tf.NDict fields) = false
    /\ map fst fields = map fst Examples.image_fields
    /\ Forall2 (fun kv field =>
                  tf.nest.map_structure get_tensor_spec (snd kv)
                  = Ok (snd field))
         Examples.image_fields fields.
Proof.
  apply (tensor_spec_for_batch_namedtuple "Batch" Examples.image_fields).
  reflexivity.
Defined.

(** ** The training context *)

Lemma derive_types_Raise (self : Args.t) (e : Exn) :
  derive_types self = Raise e -> attrs_post_init self = Raise e.
Proof.
  unfold derive_types, attrs_post_init.
  destruct (tensor_spec_for_batch (Args.dummy_gen_input self));
    simpl; [|congruence].
  destruct (tensor_spec_for_batch (Args.dummy_real_data self));
    simpl; [|congruence].
  destruct (py_call (Args.generator_model_fn self tt) _); simpl; [|congruence].
  destruct (isinstance_keras_Model (Args.generator_model_fn self tt));
    simpl; [|congruence].
  destruct (py_call (Args.discriminator_model_fn self tt) _); simpl; [|congruence].
  destruct (isinstance_keras_Model (Args.discriminator_model_fn self tt));
    simpl; [discriminate | congruence].
Qed.

Lemma derive_types_Ok (self : Args.t) (value_type : tff.WeightsType) :
  derive_types self = Ok value_type ->
  value_type = vars_to_type (weights (Args.discriminator_model_fn self tt))
  /\ (forall e,
        select_aggregation_process
          (Args.train_discriminator_dp_average_query self) value_type
        = Raise e ->
        attrs_post_init self = Raise e)
  /\ (forall p,
        select_aggregation_process
          (Args.train_discriminator_dp_average_query self) value_type
        = Ok p ->
        exists gan,
          attrs_post_init self = Ok gan
          /\ aggregation_process gan = p
          /\ discriminator_weights_type gan = value_type
          /\ train_discriminator_dp_average_query gan
             = Args.train_discriminator_dp_average_query self).
Proof.
  unfold derive_types, attrs_post_init.
  destruct (tensor_spec_for_batch (Args.dummy_gen_input self));
    simpl; [|discriminate].
  destruct (tensor_spec_for_batch (Args.dummy_real_data self));
    simpl; [|discriminate].
  destruct (py_call (Args.generator_model_fn self tt) _);
    simpl; [|discriminate].
  destruct (isinstance_keras_Model (Args.generator_model_fn self tt));
    simpl; [|discriminate].
  destruct (py_call (Args.discriminator_model_fn self tt) _);
    simpl; [|discriminate].
  destruct (isinstance_keras_Model (Args.discriminator_model_fn self tt));
    simpl; [|discriminate].
  intros H. injection H as <-. split; [reflexivity|]. split.
  - intros e ->. reflexivity.
  - intros p ->. simpl. eexists. repeat split.
Qed.

Lemma attrs_post_init_Ok (self : Args.t) (gan : GanFnsAndTypes) :
  attrs_post_init self = Ok gan ->
  derive_types self = Ok (discriminator_weights_type gan)
  /\ select_aggregation_process
       (Args.train_discriminator_dp_average_query self)
       (discriminator_weights_type gan)
     = Ok (aggregation_process gan)
  /\ discriminator_weights_type gan
     = vars_to_type (weights (Args.discriminator_model_fn self tt)).
Proof.
  intros H. destruct (derive_types self) as [value_type|e] eqn:Hd.
  - destruct (derive_types_Ok _ Hd) as (Hv & Hraise & Hok).
    destruct (select_aggregation_process _ value_type) as [p|e] eqn:Hp.
    + destruct (Hok p eq_refl) as (gan' & Hgan & Hagg & Hty & _).
      rewrite H in Hgan. injection Hgan as <-. subst.
      rewrite Hty. auto.
    + rewrite (Hraise e eq_refl) in H. discriminate.
  - rewrite (derive_types_Raise _ Hd) in H. discriminate.
Qed.

Lemma derive_types_with_query (self : Args.t) (query : option tff.PyQuery) :
  derive_types (with_query self query) = derive_types self.
Proof. reflexivity. Qed.

(** C3, as the code has it.  When a factory returns an object that is not
    a Keras model, construction fails.  If the constructor reaches the
    [isinstance] check of that object, the failure is a [TypeError] whose
    text gives the type of the object found; it does not say which factory
    made it. *)
Theorem attrs_post_init_rejects_non_model (self : Args.t) (f : Factory) :
  isinstance_keras_Model (made_by self f) = false ->
  exists e,
    attrs_post_init self = Raise e
    /\ (reaches_isinstance_check self f = true ->
        e = TypeError ("Expected `tf.keras.models.Model`, found "
                       ++ py_type (made_by self f) ++ ".")).
Proof.
  unfold attrs_post_init, reaches_isinstance_check.
  destruct (tensor_spec_for_batch (Args.dummy_gen_input self)) as [gt|e1];
    simpl; [|intros _; eexists; split; [reflexivity | discriminate]].
  destruct (tensor_spec_for_batch (Args.dummy_real_data self)) as [rt|e2];
    simpl; [|intros _; eexists; split; [reflexivity | discriminate]].
  destruct (py_call (Args.generator_model_fn self tt) _) as [[]|e3];
    simpl; [|intros _; eexists; split; [reflexivity | discriminate]].
  destruct f; simpl; intros Hnot.
  - rewrite Hnot. simpl. eexists. split; reflexivity.
  - destruct (isinstance_keras_Model (Args.generator_model_fn self tt));
      simpl; [|eexists; split; [reflexivity | discriminate]].
    destruct (py_call (Args.discriminator_model_fn self tt) _) as [[]|e4];
      simpl; [|eexists; split; [reflexivity | discriminate]].
    rewrite Hnot. simpl. eexists. split; reflexivity.
Qed.

Lemma attrs_post_init_rejects_non_model_witness :
  exists e,
    attrs_post_init
      (Examples.args Examples.generator Examples.plain_function None)
    = Raise e
    /\ (reaches_isinstance_check
          (Examples.args Examples.generator Examples.plain_function None)
          discriminator_factory = true ->
        e = TypeError ("Expected `tf.keras.models.Model`, found "
                       ++ "<class 'function'>" ++ ".")).
Proof.
  apply (attrs_post_init_rejects_non_model
           (Examples.args Examples.generator Examples.plain_function None)
           discriminator_factory).
  reflexivity.
Defined.

(** C3, as stated, fails.  A generator factory and a discriminator factory
    that return the same kind of object make construction fail with one
    and the same error, so the error does not identify the factory; and an
    object that rejects the dummy input makes construction fail with that
    object's own exception, not with a type error. *)
Lemma type_error_does_not_name_the_factory :
  isinstance_keras_Model Examples.plain_function = false
  /\ attrs_post_init
       (Examples.args Examples.plain_function Examples.discriminator None)
     = Raise (TypeError
                "Expected `tf.keras.models.Model`, found <class 'function'>.")
  /\ attrs_post_init
       (Examples.args Examples.generator Examples.plain_function None)
     = Raise (TypeError
                "Expected `tf.keras.models.Model`, found <class 'function'>.")
  /\ isinstance_keras_Model Examples.picky_function = false
  /\ attrs_post_init
       (Examples.args Examples.picky_function Examples.discriminator None)
     = Raise (ValueError "unexpected input").
Proof. repeat split. Qed.

(** C9.  The constructor does not look at the privacy query.  Steps (a)
    to (f) are the same whatever the query; once they have produced the
    discriminator weights type, the outcome of construction is the
    outcome of [DifferentiallyPrivateFactory] on the query as supplied:
    its exception if it raises, and otherwise a context holding that
    process and that query. *)
Theorem attrs_post_init_hands_query_to_factory
  (self : Args.t) (query : tff.PyQuery) :
  derive_types (with_query self (Some query)) = derive_types self
  /\ (forall e, derive_types self = Raise e ->
                attrs_post_init (with_query self (Some query)) = Raise e)
  /\ (forall value_type, derive_types self = Ok value_type ->
        (forall e,
           tff.DifferentiallyPrivateFactory_create query value_type = Raise e ->
           attrs_post_init (with_query self (Some query)) = Raise e)
        /\ (forall p,
              tff.DifferentiallyPrivateFactory_create query value_type = Ok p ->
              exists gan,
                attrs_post_init (with_query self (Some query)) = Ok gan
                /\ aggregation_process gan = p
                /\ train_discriminator_dp_average_query gan = Some query)).
Proof.
  split; [reflexivity|]. split.
  - intros e He. apply derive_types_Raise. exact He.
  - intros value_type Hd.
    destruct (@derive_types_Ok (with_query self (Some query)) value_type Hd)
      as (_ & Hraise & Hok).
    split; [exact Hraise|].
    intros p Hp. destruct (Hok p Hp) as (gan & Hgan & Hagg & _ & Hq).
    exists gan. auto.
Qed.

Lemma attrs_post_init_hands_query_to_factory_witness :
  exists gan,
    attrs_post_init
      (with_query (Examples.args Examples.generator Examples.discriminator None)
         (Some Examples.unnormalized_query))
    = Ok gan
    /\ train_discriminator_dp_average_query gan
       = Some Examples.unnormalized_query.
Proof.
  destruct (attrs_post_init_hands_query_to_factory
              (Examples.args Examples.generator Examples.discriminator None)
              Examples.unnormalized_query) as (_ & _ & H).
  destruct (H _ eq_refl) as (_ & Hok).
  destruct (Hok _ eq_refl) as (gan & Hgan & _ & Hq).
  exists gan. split; assumption.
Defined.

(** C2, as the code has it.  With a privacy query the aggregation process
    is the one [DifferentiallyPrivateFactory] creates from that query for
    the discriminator weights type, and it is not weighted: its [next]
    takes no weight and raises when given one. *)
Theorem dp_aggregation_process_is_unweighted
  (self : Args.t) (query : tff.PyQuery) (gan : GanFnsAndTypes) :
  Args.train_discriminator_dp_average_query self = Some query ->
  attrs_post_init self = Ok gan ->
  tff.DifferentiallyPrivateFactory_create query (discriminator_weights_type gan)
  = Ok (aggregation_process gan)
  /\ tff.value_type (aggregation_process gan) = discriminator_weights_type gan
  /\ tff.is_weighted (aggregation_process gan) = false
  /\ forall st value weight,
       exists msg,
         tff.next (aggregation_process gan) st value (Some weight)
         = Raise (TypeError msg).
Proof.
  intros Hq Hgan. apply attrs_post_init_Ok in Hgan as (_ & Hsel & _).
  rewrite Hq in Hsel. simpl in Hsel. split; [exact Hsel|].
  destruct query as [normalized q|name]; simpl in Hsel; [|discriminate].
  injection Hsel as <-. repeat split.
  intros st value weight. eexists. reflexivity.
Qed.

Lemma dp_aggregation_process_is_unweighted_witness :
  exists gan,
    attrs_post_init
      (Examples.args Examples.generator Examples.discriminator
         (Some Examples.normalized_query))
    = Ok gan
    /\ tff.value_type (aggregation_process gan) = discriminator_weights_type gan
    /\ tff.is_weighted (aggregation_process gan) = false.
Proof.
  eexists. split; [reflexivity|].
  destruct (@dp_aggregation_process_is_unweighted
              (Examples.args Examples.generator Examples.discriminator
                 (Some Examples.normalized_query))
              Examples.normalized_query _ eq_refl eq_refl)
    as (_ & Hty & Hw & _).
  split; assumption.
Defined.

(** C2, as stated, fails: with a privacy query the process is not
    weighted. *)
Lemma dp_aggregation_process_not_weighted_example :
  exists gan,
    attrs_post_init
      (Examples.args Examples.generator Examples.discriminator
         (Some Examples.normalized_query))
    = Ok gan
    /\ tff.is_weighted (aggregation_process gan) = false.
Proof. eexists. split; reflexivity. Qed.

Lemma vars_to_type_fully_defined (w : tff.Weights) :
  fully_defined (vars_to_type w) = true.
Proof.
  induction w as [|t w IH]; simpl; [reflexivity|].
  rewrite IH, andb_true_r. induction (tf.dims t); simpl; auto.
Qed.




(** ** Federated computations and their traces *)

Lemma mapM_map {A B C} (f : B -> Result C) (g : A -> B) (xs : list A) :
  mapM f (map g xs) = mapM (fun x => f (g x)) xs.
Proof.
  induction xs as [|x xs IH]; simpl; [reflexivity|]. rewrite IH. reflexivity.
Qed.

Section InvokedMap.

Context {A B : Type} (c : A -> Call) (r : A -> Result B).

Lemma outcome_fed_mapM_invoke (xs : list A) :
  outcome (fed_mapM (fun a => invoke (c a) (r a)) xs) = mapM r xs.
Proof.
  induction xs as [|x xs IH]; simpl; [reflexivity|].
  unfold fed_bind at 1. simpl. destruct (r x) as [y|e]; simpl; [|reflexivity].
  unfold fed_bind at 1. rewrite IH.
  destruct (mapM r xs); reflexivity.
Qed.

(** Each element is invoked in turn until one raises. *)
Lemma trace_fed_mapM_invoke (xs : list A) :
  exists n,
    trace (fed_mapM (fun a => invoke (c a) (r a)) xs) = map c (firstn n xs)
    /\ (succeeds (mapM r xs) = true -> firstn n xs = xs).
Proof.
  induction xs as [|x xs (n & Htr & Hall)]; simpl.
  - exists 0%nat. auto.
  - unfold fed_bind at 1. simpl. destruct (r x) as [y|e]; simpl.
    + exists (S n). unfold fed_bind at 1.
      rewrite outcome_fed_mapM_invoke, Htr.
      destruct (mapM r xs) as [ys|e]; simpl in *.
      * rewrite app_nil_r. split; [reflexivity|].
        intros _. f_equal. auto.
      * split; [reflexivity | discriminate].
    + exists 1%nat. simpl. split; [reflexivity | discriminate].
Qed.

End InvokedMap.

Lemma filter_none {A} (p : A -> bool) (xs : list A) :
  forallb (fun x => negb (p x)) xs = true -> filter p xs = [].
Proof.
  induction xs as [|x xs IH]; simpl; [reflexivity|].
  intros H. apply andb_prop in H as [Hx Hxs].
  apply negb_true_iff in Hx. rewrite Hx. auto.
Qed.

Lemma filter_all {A} (p : A -> bool) (xs : list A) :
  forallb p xs = true -> filter p xs = xs.
Proof.
  induction xs as [|x xs IH]; simpl; [reflexivity|].
  intros H. apply andb_prop in H as [Hx Hxs]. rewrite Hx, IH; auto.
Qed.

Lemma forallb_map_const {A B} (p : B -> bool) (f : A -> B) (xs : list A) :
  (forall x, p (f x) = true) -> forallb p (map f xs) = true.
Proof.
  intros H. induction xs as [|x xs IH]; simpl; [reflexivity|].
  rewrite H, IH. reflexivity.
Qed.

(** C7.  When the server-initial-state computation returns, the
    initialization computation returns a server state with the generator
    weights, the discriminator weights and the counters of that state and
    with the initial state of the aggregation process as
    [aggregation_state]; it has invoked the one, then the other. *)
Theorem fed_server_initial_state_merges
  (fns : gan_training_tf_fns.impl) (gan : GanFnsAndTypes)
  (state : ServerState.t) :
  gan_training_tf_fns.server_initial_state fns
    (generator_model_fn gan tt) (discriminator_model_fn gan tt)
  = Ok state ->
  outcome (fed_server_initial_state fns gan)
  = Ok (ServerState.mk
          (ServerState.generator_weights state)
          (ServerState.discriminator_weights state)
          (ServerState.counters state)
          (tff.initialize (aggregation_process gan)))
  /\ trace (fed_server_initial_state fns gan)
     = [call_server_initial_state; call_initialize].
Proof.
  intros H. unfold fed_server_initial_state, build_server_initial_state_comp,
    aggregation_initialize, fed_bind.
  cbn [outcome trace invoke]. rewrite H. cbn [outcome trace fed_ret].
  split; reflexivity.
Qed.

Lemma fed_server_initial_state_merges_witness :
  outcome (fed_server_initial_state Examples.fns Examples.gan_dp)
  = Ok (ServerState.mk (weights Examples.generator)
          (weights Examples.discriminator) [0%Z]
          (tff.initialize (aggregation_process Examples.gan_dp)))
  /\ trace (fed_server_initial_state Examples.fns Examples.gan_dp)
     = [call_server_initial_state; call_initialize].
Proof.
  apply (fed_server_initial_state_merges Examples.fns Examples.gan_dp
           (state := ServerState.mk (weights Examples.generator)
                       (weights Examples.discriminator) [0%Z] [])).
  reflexivity.
Defined.

(** * Further properties *)

(** ** The type deriver: structure, unbound dimensions, batch size *)

Section MapStructureMore.

Context {A B : Type} (func : A -> Result B).

Lemma map_structure_skeleton (s : tf.Nest A) :
  forall s', tf.nest.map_structure func s = Ok s' -> skeleton s' = skeleton s.
Proof.
  unfold skeleton.
  induction s as [a|xs IH|xs IH|kvs IH|cls kvs IH] using Nest_induction;
    intros s' H.
  - simpl in H. apply bind_Ok_inv in H as (b & _ & H).
    injection H as <-. reflexivity.
  - rewrite map_structure_NList in H.
    apply bind_Ok_inv in H as (ys & Hys & H). injection H as <-.
    apply mapM_Forall2 in Hys. simpl. f_equal.
    induction Hys; inversion IH; subst; simpl; [reflexivity|].
    f_equal; auto.
  - rewrite map_structure_NTuple in H.
    apply bind_Ok_inv in H as (ys & Hys & H). injection H as <-.
    apply mapM_Forall2 in Hys. simpl. f_equal.
    induction Hys; inversion IH; subst; simpl; [reflexivity|].
    f_equal; auto.
  - rewrite map_structure_NDict in H.
    apply bind_Ok_inv in H as (ys & Hys & H). injection H as <-.
    apply mapM_Forall2 in Hys. simpl. f_equal.
    induction Hys as [|[k x] [k' y] ? ? Hkv]; inversion IH; subst; simpl;
      [reflexivity|].
    apply map_field_inv in Hkv as [Hk Hv]. simpl in *. subst k'.
    f_equal; [f_equal|]; auto.
  - rewrite map_structure_NNamedTuple in H.
    apply bind_Ok_inv in H as (ys & Hys & H). injection H as <-.
    apply mapM_Forall2 in Hys. simpl. f_equal.
    induction Hys as [|[k x] [k' y] ? ? Hkv]; inversion IH; subst; simpl;
      [reflexivity|].
    apply map_field_inv in Hkv as [Hk Hv]. simpl in *. subst k'.
    f_equal; [f_equal|]; auto.
Qed.

End MapStructureMore.

Lemma mapM_ext_Forall {A B} (f g : A -> Result B) (xs : list A) :
  Forall (fun x => f x = g x) xs -> mapM f xs = mapM g xs.
Proof.
  induction 1 as [|x xs Hx _ IH]; simpl; [reflexivity|].
  rewrite Hx, IH. reflexivity.
Qed.

(** Mapping the leaves first and traversing afterwards is one traversal. *)
Lemma map_structure_nest_map {A B C} (g : A -> B) (func : B -> Result C)
  (s : tf.Nest A) :
  tf.nest.map_structure func (nest_map g s)
  = tf.nest.map_structure (fun a => func (g a)) s.
Proof.
  induction s as [a|xs IH|xs IH|kvs IH|cls kvs IH] using Nest_induction.
  - reflexivity.
  - cbn [nest_map]. rewrite !map_structure_NList, mapM_map.
    f_equal. apply mapM_ext_Forall. exact IH.
  - cbn [nest_map]. rewrite !map_structure_NTuple, mapM_map.
    f_equal. apply mapM_ext_Forall. exact IH.
  - cbn [nest_map]. rewrite !map_structure_NDict, mapM_map.
    f_equal. apply mapM_ext_Forall.
    eapply Forall_impl; [|exact IH]. intros [k x] Hx. unfold map_field.
    simpl in *. rewrite Hx. reflexivity.
  - cbn [nest_map]. rewrite !map_structure_NNamedTuple, mapM_map.
    f_equal. apply mapM_ext_Forall.
    eapply Forall_impl; [|exact IH]. intros [k x] Hx. unfold map_field.
    simpl in *. rewrite Hx. reflexivity.
Qed.

Lemma map_structure_ext {A B} (f g : A -> Result B) (s : tf.Nest A) :
  (forall a, f a = g a) ->
  tf.nest.map_structure f s = tf.nest.map_structure g s.
Proof.
  intros Hfg.
  induction s as [a|xs IH|xs IH|kvs IH|cls kvs IH] using Nest_induction.
  - simpl. rewrite Hfg. reflexivity.
  - rewrite !map_structure_NList. f_equal. apply mapM_ext_Forall. exact IH.
  - rewrite !map_structure_NTuple. f_equal. apply mapM_ext_Forall. exact IH.
  - rewrite !map_structure_NDict. f_equal. apply mapM_ext_Forall.
    eapply Forall_impl; [|exact IH]. intros kv Hkv. unfold map_field.
    rewrite Hkv. reflexivity.
  - rewrite !map_structure_NNamedTuple. f_equal. apply mapM_ext_Forall.
    eapply Forall_impl; [|exact IH]. intros kv Hkv. unfold map_field.
    rewrite Hkv. reflexivity.
Qed.

Lemma asdict_nest_map {A B} (g : A -> B) (b : tf.Nest A) :
  asdict (nest_map g b) = nest_map g (asdict b).
Proof. destruct b; reflexivity. Qed.

Lemma get_tensor_spec_rebatch (n : nat) (v : tf.PyLeaf) :
  get_tensor_spec (rebatch n v) = get_tensor_spec v.
Proof.
  destruct v as [t|name]; [|reflexivity].
  unfold rebatch, get_tensor_spec.
  destruct (tf.dims t) eqn:Hd; simpl; rewrite ?Hd; reflexivity.
Qed.

(** X1.  The signature has the containers of the batch: lists, tuples,
    mappings with their keys and nested named tuples with their class
    stay what they are; only a named tuple at the top is a mapping in the
    signature. *)
Theorem tensor_spec_for_batch_skeleton
  (b : tf.Nest tf.PyLeaf) (sig : tf.Nest tf.TensorSpec) :
  tensor_spec_for_batch b = Ok sig -> skeleton sig = skeleton (asdict b).
Proof.
  rewrite tensor_spec_for_batch_asdict. apply map_structure_skeleton.
Qed.

Lemma tensor_spec_for_batch_skeleton_witness :
  skeleton (@Examples.unwrap _ (tensor_spec_for_batch Examples.image_batch))
  = skeleton (asdict Examples.image_batch).
Proof.
  apply (@tensor_spec_for_batch_skeleton Examples.image_batch). reflexivity.
Defined.

(** X2.  In every signature the deriver returns, each leaf has its
    leading dimension unbound and every other dimension known. *)
Theorem tensor_spec_for_batch_only_batch_unbound
  (b : tf.Nest tf.PyLeaf) (sig : tf.Nest tf.TensorSpec) :
  tensor_spec_for_batch b = Ok sig ->
  Forall only_batch_unbound (tf.nest.leaves sig).
Proof.
  rewrite tensor_spec_for_batch_asdict. intros H.
  apply map_structure_leaves in H.
  induction H as [|v spec vs specs Hv _ IH]; constructor; [|exact IH].
  destruct v as [t|name]; unfold get_tensor_spec in Hv; simpl in Hv;
    [|discriminate].
  injection Hv as <-. exists (tl (tf.dims t)). reflexivity.
Qed.

Lemma tensor_spec_for_batch_only_batch_unbound_witness :
  Forall only_batch_unbound
    (tf.nest.leaves
       (@Examples.unwrap _ (tensor_spec_for_batch Examples.image_batch))).
Proof.
  apply (@tensor_spec_for_batch_only_batch_unbound Examples.image_batch).
  reflexivity.
Defined.

(** X3.  The signature does not depend on the number of examples in the
    dummy batch nor on their values: replacing every leaf that has a batch
    dimension by a batch of [n] zero examples gives the same outcome. *)
Theorem tensor_spec_for_batch_rebatch (n : nat) (b : tf.Nest tf.PyLeaf) :
  tensor_spec_for_batch (nest_map (rebatch n) b) = tensor_spec_for_batch b.
Proof.
  rewrite !tensor_spec_for_batch_asdict, asdict_nest_map,
    map_structure_nest_map.
  apply map_structure_ext. intros v. apply get_tensor_spec_rebatch.
Qed.

(** ** The training context: when construction succeeds, and with what *)

Lemma tensor_spec_for_batch_unconvertible (b : tf.Nest tf.PyLeaf) :
  (exists v, In v (tf.nest.leaves b) /\ convertible v = false) ->
  tensor_spec_for_batch b = Raise TensorConversionError.
Proof.
  intros (v & Hin & Hv).
  pose proof (tensor_spec_for_batch_succeeds b) as Hs.
  destruct (tensor_spec_for_batch b) as [sig|e] eqn:Hb.
  - simpl in Hs. symmetry in Hs. rewrite forallb_forall in Hs.
    rewrite (Hs v Hin) in Hv. discriminate.
  - f_equal. rewrite tensor_spec_for_batch_asdict in Hb.
    apply map_structure_Raise in Hb as (a & _ & Ha).
    eapply get_tensor_spec_Raise; eauto.
Qed.

(** X5.  A context the constructor returns is consistent with itself: its
    input types are the signatures of its own dummy batches, its sample
    models are Keras models and accept those batches, its weights types
    are the types of the sample models' weights and have no unbound
    dimension, the payload type pairs the two weights types, the federated
    types are sequences of the input types at the clients and, for the
    generator inputs, at the server, and its aggregation process works on
    the discriminator weights type. *)
Theorem attrs_post_init_consistent (self : Args.t) (gan : GanFnsAndTypes) :
  attrs_post_init self = Ok gan ->
  tensor_spec_for_batch (dummy_gen_input gan) = Ok (gen_input_type gan)
  /\ tensor_spec_for_batch (dummy_real_data gan) = Ok (real_data_type gan)
  /\ isinstance_keras_Model (_generator gan) = true
  /\ isinstance_keras_Model (_discriminator gan) = true
  /\ py_call (_generator gan) (dummy_gen_input gan) = Ok tt
  /\ py_call (_discriminator gan) (dummy_real_data gan) = Ok tt
  /\ generator_weights_type gan = vars_to_type (weights (_generator gan))
  /\ discriminator_weights_type gan
     = vars_to_type (weights (_discriminator gan))
  /\ fully_defined (generator_weights_type gan) = true
  /\ fully_defined (discriminator_weights_type gan) = true
  /\ from_server_type gan
     = (generator_weights_type gan, discriminator_weights_type gan)
  /\ client_gen_input_type gan
     = tff.FederatedType (tff.SequenceType (gen_input_type gan)) tff.CLIENTS
  /\ client_real_data_type gan
     = tff.FederatedType (tff.SequenceType (real_data_type gan)) tff.CLIENTS
  /\ server_gen_input_type gan
     = tff.FederatedType (tff.SequenceType (gen_input_type gan)) tff.SERVER
  /\ tff.value_type (aggregation_process gan) = discriminator_weights_type gan.
Proof.
  unfold attrs_post_init.
  destruct (tensor_spec_for_batch (Args.dummy_gen_input self)) as [gt|e] eqn:Hg;
    simpl; [|discriminate].
  destruct (tensor_spec_for_batch (Args.dummy_real_data self)) as [rt|e] eqn:Hr;
    simpl; [|discriminate].
  destruct (py_call (Args.generator_model_fn self tt) _) as [[]|e] eqn:Hcg;
    simpl; [|discriminate].
  destruct (isinstance_keras_Model (Args.generator_model_fn self tt)) eqn:Hig;
    simpl; [|discriminate].
  destruct (py_call (Args.discriminator_model_fn self tt) _) as [[]|e] eqn:Hcd;
    simpl; [|discriminate].
  destruct (isinstance_keras_Model (Args.discriminator_model_fn self tt))
    eqn:Hid; simpl; [|discriminate].
  destruct (select_aggregation_process _ _) as [p|e] eqn:Hp;
    simpl; [|discriminate].
  intros H. injection H as <-. simpl.
  repeat (split; [first [assumption | reflexivity
                        | apply vars_to_type_fully_defined]|]).
  destruct (Args.train_discriminator_dp_average_query self) as [[nrm q|name]|];
    simpl in Hp; try discriminate; injection Hp as <-; reflexivity.
Qed.

Lemma attrs_post_init_consistent_witness :
  tensor_spec_for_batch (dummy_gen_input Examples.gan_dp)
  = Ok (gen_input_type Examples.gan_dp)
  /\ fully_defined (discriminator_weights_type Examples.gan_dp) = true
  /\ tff.value_type (aggregation_process Examples.gan_dp)
     = discriminator_weights_type Examples.gan_dp.
Proof.
  destruct (@attrs_post_init_consistent
              (Examples.args Examples.generator Examples.discriminator
                 (Some Examples.normalized_query))
              Examples.gan_dp eq_refl)
    as (H1 & _ & _ & _ & _ & _ & _ & _ & _ & H2 & _ & _ & _ & _ & H3).
  auto.
Defined.

(** X6.  The dummy batches are examined first: when a leaf of either
    dummy batch does not convert to a tensor, construction raises the
    conversion error, whatever the factories return and whatever the
    query is. *)
Theorem attrs_post_init_bad_batch_first (self : Args.t) (v : tf.PyLeaf) :
  In v (tf.nest.leaves (Args.dummy_gen_input self)
        ++ tf.nest.leaves (Args.dummy_real_data self))%list ->
  convertible v = false ->
  attrs_post_init self = Raise TensorConversionError.
Proof.
  intros Hin Hv. apply derive_types_Raise. unfold derive_types.
  apply in_app_or in Hin as [Hin|Hin].
  - rewrite (@tensor_spec_for_batch_unconvertible (Args.dummy_gen_input self))
      by eauto.
    reflexivity.
  - destruct (tensor_spec_for_batch (Args.dummy_gen_input self)) as [gt|e] eqn:Hg.
    + simpl.
      rewrite (@tensor_spec_for_batch_unconvertible (Args.dummy_real_data self))
        by eauto.
      reflexivity.
    + simpl. f_equal. rewrite tensor_spec_for_batch_asdict in Hg.
      apply map_structure_Raise in Hg as (a & _ & Ha).
      eapply get_tensor_spec_Raise; eauto.
Qed.

Lemma attrs_post_init_bad_batch_first_witness :
  isinstance_keras_Model
    (Args.generator_model_fn Scenarios.args_bad_batch tt) = false
  /\ attrs_post_init Scenarios.args_bad_batch = Raise TensorConversionError.
Proof.
  split; [reflexivity|].
  apply (@attrs_post_init_bad_batch_first Scenarios.args_bad_batch
           (tf.NotArrayLike "<class 'NoneType'>")).
  - simpl. auto.
  - reflexivity.
Defined.

(** ** The round: what is invoked, in which order, and what stops it *)

Lemma outcome_fed_bind {A B} (m : Fed A) (k : A -> Fed B) :
  outcome (fed_bind m k)
  = match outcome m with
    | Ok a => outcome (k a)
    | Raise e => Raise e
    end.
Proof. unfold fed_bind. destruct (outcome m); reflexivity. Qed.

Lemma trace_fed_bind {A B} (m : Fed A) (k : A -> Fed B) :
  trace (fed_bind m k)
  = match outcome m with
    | Ok a => (trace m ++ trace (k a))%list
    | Raise e => trace m
    end.
Proof. unfold fed_bind. destruct (outcome m); reflexivity. Qed.

Section RoundStages.

Variables (fns : gan_training_tf_fns.impl) (gan : GanFnsAndTypes).
Variables (server_state : ServerState.t) (server_gen_inputs : Dataset).
Variables (client_gen_inputs client_real_data : list Dataset).

Let payload := payload_of server_state.
Let clients := combine client_gen_inputs client_real_data.
Let st := ServerState.aggregation_state server_state.
Let round :=
  run_one_round fns gan server_state server_gen_inputs
    client_gen_inputs client_real_data.

(** The round, stage by stage: its outcome and its trace according to
    how far it gets. *)
Lemma run_one_round_stages :
  match client_stage fns gan payload client_gen_inputs client_real_data with
  | Raise e =>
      outcome round = Raise e
      /\ exists n, trace round = map (client_call payload) (firstn n clients)
  | Ok outs =>
      let deltas := map ClientOutput.discriminator_weights_delta outs in
      match tff.next (aggregation_process gan) st deltas (next_weight gan outs)
      with
      | Raise e =>
          outcome round = Raise e
          /\ trace round
             = (map (client_call payload) clients
                ++ [call_next st deltas (next_weight gan outs)])%list
      | Ok agg =>
          let out := aggregated_output (tff.result agg) outs in
          outcome round
          = server_step fns gan server_state server_gen_inputs out
              (tff.state agg)
          /\ trace round
             = (map (client_call payload) clients
                ++ [call_next st deltas (next_weight gan outs);
                    call_server_computation server_state server_gen_inputs
                      out (tff.state agg)])%list
      end
  end.
Proof.
  unfold round, run_one_round, client_stage, federated_broadcast,
    federated_zip_clients.
  destruct (negb (Nat.eqb (List.length client_gen_inputs)
                          (List.length client_real_data))).
  { split; [reflexivity | exists 0%nat; reflexivity]. }
  rewrite outcome_fed_bind, trace_fed_bind. cbn [outcome trace fed_lift app].
  fold clients. set (args := map _ clients).
  unfold build_client_computation.
  destruct (trace_fed_mapM_invoke
              (fun a => call_client_computation (fst (fst a)) (snd (fst a))
                          (snd a))
              (fun a => gan_training_tf_fns.client_computation fns
                          (fst (fst a)) (snd (fst a)) (snd a)
                          (generator_model_fn gan tt)
                          (discriminator_model_fn gan tt)
                          (train_discriminator_fn gan))
              args) as (n & Htr & Hall).
  assert (Hcalls : forall m,
             map (fun a => call_client_computation (fst (fst a))
                             (snd (fst a)) (snd a)) (firstn m args)
             = map (client_call payload) (firstn m clients)).
  { intros m. unfold args. rewrite firstn_map, map_map. reflexivity. }
  assert (Hstage :
            mapM (fun a => gan_training_tf_fns.client_computation fns
                             (fst (fst a)) (snd (fst a)) (snd a)
                             (generator_model_fn gan tt)
                             (discriminator_model_fn gan tt)
                             (train_discriminator_fn gan)) args
            = mapM (fun gr => gan_training_tf_fns.client_computation fns
                                (fst gr) (snd gr) payload
                                (generator_model_fn gan tt)
                                (discriminator_model_fn gan tt)
                                (train_discriminator_fn gan)) clients).
  { unfold args. rewrite mapM_map. reflexivity. }
  rewrite outcome_fed_bind, trace_fed_bind.
  rewrite outcome_fed_mapM_invoke, Htr, Hcalls.
  rewrite Hstage in *.
  destruct (mapM _ clients) as [outs|e].
  - assert (Hn : firstn n clients = clients).
    { specialize (Hall eq_refl). unfold args in Hall.
      rewrite firstn_map in Hall.
      apply (f_equal (@List.length _)) in Hall.
      rewrite !length_map, length_firstn in Hall.
      apply firstn_all2. lia. }
    rewrite Hn, outcome_fed_bind, trace_fed_bind. fold st.
    assert (Hnext :
              (if tff.is_weighted (aggregation_process gan)
               then aggregation_next (aggregation_process gan) st
                      (map ClientOutput.discriminator_weights_delta outs)
                      (Some (map ClientOutput.update_weight outs))
               else aggregation_next (aggregation_process gan) st
                      (map ClientOutput.discriminator_weights_delta outs)
                      None)
              = aggregation_next (aggregation_process gan) st
                  (map ClientOutput.discriminator_weights_delta outs)
                  (next_weight gan outs)).
    { unfold next_weight.
      destruct (tff.is_weighted (aggregation_process gan)); reflexivity. }
    rewrite Hnext. unfold aggregation_next. cbn [outcome trace invoke].
    destruct (tff.next _ _ _ _) as [agg|e]; split; reflexivity.
  - split; [reflexivity|]. exists n. reflexivity.
Qed.

End RoundStages.

(** C6.  In a round the aggregation process is invoked at most once, after
    the client stage, and the form of the call follows the flag: [next]
    is called with the clients' [update_weight] values when the process is
    weighted and without a weight when it is not, so that the function
    behind [next] is applied to the arguments it takes; what that call
    returns is what the server computation is given, and what it raises is
    what the round raises. *)
Theorem run_one_round_next_follows_flag
  (fns : gan_training_tf_fns.impl) (gan : GanFnsAndTypes)
  (server_state : ServerState.t) (server_gen_inputs : Dataset)
  (client_gen_inputs client_real_data : list Dataset) :
  let p := aggregation_process gan in
  let st := ServerState.aggregation_state server_state in
  let round :=
    run_one_round fns gan server_state server_gen_inputs
      client_gen_inputs client_real_data in
  match client_stage fns gan (payload_of server_state)
          client_gen_inputs client_real_data with
  | Ok client_outputs =>
      let deltas :=
        map ClientOutput.discriminator_weights_delta client_outputs in
      let weights := map ClientOutput.update_weight client_outputs in
      let weight := if tff.is_weighted p then Some weights else None in
      filter is_call_next (trace round) = [call_next st deltas weight]
      /\ tff.next p st deltas weight
         = match tff.next_fn p with
           | tff.next_weighted f => f st deltas weights
           | tff.next_unweighted f => f st deltas
           end
      /\ outcome round
         = (agg <- tff.next p st deltas weight ;;
            server_step fns gan server_state server_gen_inputs
              (aggregated_output (tff.result agg) client_outputs)
              (tff.state agg))
  | Raise e =>
      filter is_call_next (trace round) = [] /\ outcome round = Raise e
  end.
Proof.
  intros p st round.
  pose proof (run_one_round_stages fns gan server_state server_gen_inputs
                client_gen_inputs client_real_data) as H.
  cbv zeta in H. unfold next_weight in H. fold p st round in H.
  destruct (client_stage _ _ _ _ _) as [outs|e].
  - cbv zeta. split; [|split].
    + destruct (tff.next p st _ _) as [agg|e]; destruct H as [_ ->];
        rewrite filter_app;
        rewrite (@filter_none _ is_call_next (map _ _))
          by (apply forallb_map_const; reflexivity);
        reflexivity.
    + unfold tff.next, tff.is_weighted.
      destruct (tff.next_fn p); reflexivity.
    + destruct (tff.next p st _ _) as [agg|e]; destruct H as [-> _];
        reflexivity.
  - destruct H as [-> (n & ->)]. split; [|reflexivity].
    apply filter_none, forallb_map_const. reflexivity.
Qed.

Lemma run_one_round_next_follows_flag_witness :
  let round :=
    run_one_round Examples.fns Examples.gan_mean Scenarios.server_state []
      Examples.client_gen_inputs Examples.client_real_data in
  let deltas :=
    map ClientOutput.discriminator_weights_delta Scenarios.client_outputs in
  let weights := map ClientOutput.update_weight Scenarios.client_outputs in
  filter is_call_next (trace round) = [call_next [] deltas (Some weights)]
  /\ outcome round
     = (agg <- tff.next (aggregation_process Examples.gan_mean) [] deltas
                 (Some weights) ;;
        server_step Examples.fns Examples.gan_mean Scenarios.server_state []
          (aggregated_output (tff.result agg) Scenarios.client_outputs)
          (tff.state agg)).
Proof.
  destruct (run_one_round_next_follows_flag Examples.fns Examples.gan_mean
              Scenarios.server_state [] Examples.client_gen_inputs
              Examples.client_real_data) as (Htrace & _ & Houtcome).
  split; [exact Htrace | exact Houtcome].
Defined.

(** C8.  Every client computation of a round is handed one and the same
    payload, made of the generator weights and the discriminator weights
    of the server state and of nothing else: the calls in the trace carry
    it, each client's output is that of the client computation applied to
    the client's datasets and this payload, and these outputs are what the
    round aggregates. *)
Theorem run_one_round_broadcasts_weights
  (fns : gan_training_tf_fns.impl) (gan : GanFnsAndTypes)
  (generator_weights discriminator_weights : tff.Weights)
  (counters : Counters) (aggregation_state : tff.AggState)
  (server_gen_inputs : Dataset)
  (client_gen_inputs client_real_data : list Dataset) :
  let server_state :=
    ServerState.mk generator_weights discriminator_weights counters
      aggregation_state in
  let payload := FromServer.mk generator_weights discriminator_weights in
  let round :=
    run_one_round fns gan server_state server_gen_inputs
      client_gen_inputs client_real_data in
  (forall gen_inputs real_data from_server,
     In (call_client_computation gen_inputs real_data from_server)
        (trace round) ->
     from_server = payload)
  /\ (forall client_outputs,
        client_stage fns gan payload client_gen_inputs client_real_data
        = Ok client_outputs ->
        filter is_call_client_computation (trace round)
        = map (client_call payload)
            (combine client_gen_inputs client_real_data))
  /\ (forall client_outputs,
        client_stage fns gan payload client_gen_inputs client_real_data
        = Ok client_outputs ->
        Forall2
          (fun gr out =>
             gan_training_tf_fns.client_computation fns (fst gr) (snd gr)
               payload (generator_model_fn gan tt)
               (discriminator_model_fn gan tt) (train_discriminator_fn gan)
             = Ok out)
          (combine client_gen_inputs client_real_data) client_outputs)
  /\ outcome round
     = (client_outputs <-
          client_stage fns gan payload client_gen_inputs client_real_data ;;
        agg <-
          tff.next (aggregation_process gan) aggregation_state
            (map ClientOutput.discriminator_weights_delta client_outputs)
            (next_weight gan client_outputs) ;;
        server_step fns gan server_state server_gen_inputs
          (aggregated_output (tff.result agg) client_outputs)
          (tff.state agg)).
Proof.
  intros server_state payload round.
  pose proof (run_one_round_stages fns gan server_state server_gen_inputs
                client_gen_inputs client_real_data) as H.
  cbv zeta in H. fold round in H.
  change (payload_of server_state) with payload in H.
  change (ServerState.aggregation_state server_state)
    with aggregation_state in H.
  split; [|split; [|split]].
  - intros g r fs Hin.
    assert (Hclient : forall xs,
               In (call_client_computation g r fs)
                  (map (client_call payload) xs) -> fs = payload).
    { intros xs Hxs. apply in_map_iff in Hxs as (gr & Hgr & _).
      unfold client_call in Hgr. congruence. }
    destruct (client_stage _ _ _ _ _) as [outs|e].
    + destruct (tff.next _ _ _ _) as [agg|e]; destruct H as [_ Htr];
        rewrite Htr in Hin; apply in_app_or in Hin as [Hin|Hin];
        try (eapply Hclient; eassumption);
        simpl in Hin; intuition discriminate.
    + destruct H as [_ (n & Htr)]. rewrite Htr in Hin.
      eapply Hclient; eassumption.
  - intros outs Hstage. rewrite Hstage in H.
    destruct (tff.next _ _ _ _) as [agg|e]; destruct H as [_ ->];
      rewrite filter_app, filter_all
        by (apply forallb_map_const; reflexivity);
      simpl; apply app_nil_r.
  - intros outs Hstage. unfold client_stage in Hstage.
    destruct (negb _); [discriminate|].
    apply mapM_Forall2 in Hstage. exact Hstage.
  - destruct (client_stage _ _ _ _ _) as [outs|e]; simpl.
    + destruct (tff.next _ _ _ _) as [agg|e']; destruct H as [-> _];
        reflexivity.
    + destruct H as [-> _]. reflexivity.
Qed.

Lemma run_one_round_broadcasts_weights_witness :
  let payload :=
    FromServer.mk (weights Examples.generator)
      (weights Examples.discriminator) in
  let round :=
    run_one_round Examples.fns Examples.gan_mean
      (ServerState.mk (weights Examples.generator)
         (weights Examples.discriminator) [0%Z] [])
      [] Examples.client_gen_inputs Examples.client_real_data in
  filter is_call_client_computation (trace round)
  = map (client_call payload)
      (combine Examples.client_gen_inputs Examples.client_real_data)
  /\ Forall2
       (fun gr out =>
          gan_training_tf_fns.client_computation Examples.fns
            (fst gr) (snd gr) payload
            (generator_model_fn Examples.gan_mean tt)
            (discriminator_model_fn Examples.gan_mean tt)
            (train_discriminator_fn Examples.gan_mean)
          = Ok out)
       (combine Examples.client_gen_inputs Examples.client_real_data)
       Scenarios.client_outputs.
Proof.
  destruct (run_one_round_broadcasts_weights Examples.fns Examples.gan_mean
              (weights Examples.generator) (weights Examples.discriminator)
              [0%Z] [] [] Examples.client_gen_inputs
              Examples.client_real_data) as (_ & Htrace & Hclients & _).
  split.
  - exact (Htrace Scenarios.client_outputs eq_refl).
  - exact (Hclients Scenarios.client_outputs eq_refl).
Defined.

(** X7.  A round whose client stage and aggregation both return invokes,
    in this order, the client computation once per client, the
    aggregation process once, and the server computation once, on the
    prior server state, the server's generator inputs, the aggregated
    client output (the aggregated delta, the sum of the clients'
    [update_weight] and the sum of their counters) and the new
    aggregation state; the outcome of the server computation is the
    outcome of the round. *)
Theorem run_one_round_success
  (fns : gan_training_tf_fns.impl) (gan : GanFnsAndTypes)
  (server_state : ServerState.t) (server_gen_inputs : Dataset)
  (client_gen_inputs client_real_data : list Dataset)
  (outs : list ClientOutput.t) (agg : tff.MeasuredProcessOutput) :
  client_stage fns gan (payload_of server_state)
    client_gen_inputs client_real_data = Ok outs ->
  tff.next (aggregation_process gan)
    (ServerState.aggregation_state server_state)
    (map ClientOutput.discriminator_weights_delta outs)
    (next_weight gan outs) = Ok agg ->
  let round :=
    run_one_round fns gan server_state server_gen_inputs
      client_gen_inputs client_real_data in
  let out := aggregated_output (tff.result agg) outs in
  outcome round
  = server_step fns gan server_state server_gen_inputs out (tff.state agg)
  /\ trace round
     = (map (client_call (payload_of server_state))
          (combine client_gen_inputs client_real_data)
        ++ [call_next (ServerState.aggregation_state server_state)
              (map ClientOutput.discriminator_weights_delta outs)
              (next_weight gan outs);
            call_server_computation server_state server_gen_inputs out
              (tff.state agg)])%list.
Proof.
  intros Hstage Hnext.
  pose proof (run_one_round_stages fns gan server_state server_gen_inputs
                client_gen_inputs client_real_data) as H.
  rewrite Hstage in H. cbv zeta in H. rewrite Hnext in H. exact H.
Qed.

Lemma run_one_round_success_witness :
  outcome (run_one_round Examples.fns Examples.gan_mean
             Scenarios.server_state [] Examples.client_gen_inputs
             Examples.client_real_data)
  = server_step Examples.fns Examples.gan_mean Scenarios.server_state []
      (aggregated_output (tff.result Scenarios.aggregation_output)
         Scenarios.client_outputs)
      (tff.state Scenarios.aggregation_output).
Proof.
  apply (@run_one_round_success Examples.fns Examples.gan_mean
           Scenarios.server_state [] Examples.client_gen_inputs
           Examples.client_real_data Scenarios.client_outputs
           Scenarios.aggregation_output eq_refl eq_refl).
Defined.

(** X8.  When a client computation raises, the round raises the same
    exception; only client computations have been invoked, those up to
    the one that raised, and neither the aggregation process nor the
    server computation. *)
Theorem run_one_round_client_failure
  (fns : gan_training_tf_fns.impl) (gan : GanFnsAndTypes)
  (server_state : ServerState.t) (server_gen_inputs : Dataset)
  (client_gen_inputs client_real_data : list Dataset) (e : Exn) :
  client_stage fns gan (payload_of server_state)
    client_gen_inputs client_real_data = Raise e ->
  let round :=
    run_one_round fns gan server_state server_gen_inputs
      client_gen_inputs client_real_data in
  outcome round = Raise e
  /\ exists n,
       trace round
       = map (client_call (payload_of server_state))
           (firstn n (combine client_gen_inputs client_real_data)).
Proof.
  intros Hstage.
  pose proof (run_one_round_stages fns gan server_state server_gen_inputs
                client_gen_inputs client_real_data) as H.
  rewrite Hstage in H. exact H.
Qed.

Lemma run_one_round_client_failure_witness :
  outcome (run_one_round Scenarios.failing_client Examples.gan_mean
             Scenarios.server_state [] Examples.client_gen_inputs
             Examples.client_real_data)
  = Raise (ValueError "client dropped out").
Proof.
  apply (@run_one_round_client_failure Scenarios.failing_client
           Examples.gan_mean Scenarios.server_state []
           Examples.client_gen_inputs Examples.client_real_data
           (ValueError "client dropped out") eq_refl).
Defined.

(** X9.  When the aggregation process raises, the round raises the same
    exception and the server computation is not invoked: the trace ends
    with the call of [next]. *)
Theorem run_one_round_aggregation_failure
  (fns : gan_training_tf_fns.impl) (gan : GanFnsAndTypes)
  (server_state : ServerState.t) (server_gen_inputs : Dataset)
  (client_gen_inputs client_real_data : list Dataset)
  (outs : list ClientOutput.t) (e : Exn) :
  client_stage fns gan (payload_of server_state)
    client_gen_inputs client_real_data = Ok outs ->
  tff.next (aggregation_process gan)
    (ServerState.aggregation_state server_state)
    (map ClientOutput.discriminator_weights_delta outs)
    (next_weight gan outs) = Raise e ->
  let round :=
    run_one_round fns gan server_state server_gen_inputs
      client_gen_inputs client_real_data in
  outcome round = Raise e
  /\ trace round
     = (map (client_call (payload_of server_state))
          (combine client_gen_inputs client_real_data)
        ++ [call_next (ServerState.aggregation_state server_state)
              (map ClientOutput.discriminator_weights_delta outs)
              (next_weight gan outs)])%list.
Proof.
  intros Hstage Hnext.
  pose proof (run_one_round_stages fns gan server_state server_gen_inputs
                client_gen_inputs client_real_data) as H.
  rewrite Hstage in H. cbv zeta in H. rewrite Hnext in H. exact H.
Qed.

Lemma run_one_round_aggregation_failure_witness :
  outcome (run_one_round Scenarios.misshapen_clients Examples.gan_mean
             Scenarios.server_state [] Examples.client_gen_inputs
             Examples.client_real_data)
  = Raise (TypeError "value does not match the value type of the process").
Proof.
  apply (@run_one_round_aggregation_failure Scenarios.misshapen_clients
           Examples.gan_mean Scenarios.server_state []
           Examples.client_gen_inputs Examples.client_real_data
           [ClientOutput.mk [] (Qc_of_nat 1) [];
            ClientOutput.mk [] (Qc_of_nat 2) []]
           (TypeError "value does not match the value type of the process")
           eq_refl eq_refl).
Defined.

(** X10.  When the server-initial-state computation raises, the
    initialization raises the same exception and the aggregation process
    is not initialized. *)
Theorem fed_server_initial_state_failure
  (fns : gan_training_tf_fns.impl) (gan : GanFnsAndTypes) (e : Exn) :
  gan_training_tf_fns.server_initial_state fns
    (generator_model_fn gan tt) (discriminator_model_fn gan tt)
  = Raise e ->
  outcome (fed_server_initial_state fns gan) = Raise e
  /\ trace (fed_server_initial_state fns gan) = [call_server_initial_state].
Proof.
  intros H. unfold fed_server_initial_state, build_server_initial_state_comp.
  rewrite outcome_fed_bind, trace_fed_bind. cbn [outcome trace invoke].
  rewrite H. split; reflexivity.
Qed.

Lemma fed_server_initial_state_failure_witness :
  outcome (fed_server_initial_state Scenarios.failing_start Examples.gan_mean)
  = Raise (ValueError "no initial state")
  /\ trace (fed_server_initial_state Scenarios.failing_start Examples.gan_mean)
     = [call_server_initial_state].
Proof.
  apply (@fed_server_initial_state_failure Scenarios.failing_start
           Examples.gan_mean (ValueError "no initial state")).
  reflexivity.
Defined.
